(** * UFEDkml2map: a shallow embedding of [UFEDkml2map.py]

    The development follows the script top to bottom: the [str] methods it
    calls, the lxml element tree that [etree.iterparse] builds and that the
    loop of [parse_kml] mutates, the extraction loop itself, the two prompts
    and the file validation, and the fan-out of [export_all_plots].

    Conventions.
    - A Python [str] is a [string] of 8-bit characters (ASCII text).
    - A raised exception is a value of [exception]; a computation that can
      raise returns a [result].
    - Python's builtin [float] is a parameter of the extractor: any function
      from strings to an optional value of some type of floats.
    - Input that is not well-formed XML is outside the model: a document is
      an element tree.  Comments and processing instructions are left out.
      Inside an element they change nothing that the script reads.  Before a
      root element that is itself a Placemark they make line 94 fail
      ([getparent()] is [None] there, and [del None[0]] raises [TypeError]):
      the statements that speak of every exception ask for a root that is
      not a Placemark, as the [kml] root of a KML document is. *)

From Stdlib Require Import String Ascii List Bool Arith Lia Permutation.
From Stdlib Require Import ZArith QArith.
Import ListNotations.
Close Scope Q_scope.
Close Scope Z_scope.
Open Scope string_scope.
Open Scope list_scope.

Set Implicit Arguments.

(* ================================================================== *)
(** ** Exceptions and results *)

Inductive exc_class : Type :=
| CAttributeError | CValueError | CFileNotFoundError | CXMLSyntaxError | CException.

(** One constructor per way an exception is created in the script or by the
    builtins it calls; the payload is what the message is formatted from. *)
Inductive exception : Type :=
| AttributeError (attr : string)
    (* 'NoneType' object has no attribute '<attr>' *)
| UnpackError (expected got : nat)
    (* ValueError: not enough / too many values to unpack (expected 2 ...) *)
| FloatError (arg : string)
    (* ValueError: could not convert string to float: <repr arg> *)
| XMLSyntaxError (msg : string)
| ParsingError (cause : exception)
    (* ValueError(f"Error parsing KML file: {e}"), line 100 *)
| FileNotFoundError (kml_file : string)
    (* line 66 *)
| NotKmlError (kml_file : string)
    (* ValueError(f"Error: The file '{kml_file}' is not a KML file."), line 69 *)
| UnknownPlotType (plot_type : string)
    (* ValueError(f"Unknown plot type: {plot_type}"), line 133 *)
| OtherException (msg : string).
    (* anything a collaborator (plotly, the file system) raises *)

Definition class_of (e : exception) : exc_class :=
  match e with
  | AttributeError _ => CAttributeError
  | UnpackError _ _ | FloatError _ | ParsingError _
  | NotKmlError _ | UnknownPlotType _ => CValueError
  | XMLSyntaxError _ => CXMLSyntaxError
  | FileNotFoundError _ => CFileNotFoundError
  | OtherException _ => CException
  end.

Inductive result (A : Type) : Type :=
| Ok (a : A)
| Raise (e : exception).
Arguments Ok {A} a.
Arguments Raise {A} e.

Definition bind {A B : Type} (r : result A) (k : A -> result B) : result B :=
  match r with
  | Ok a => k a
  | Raise e => Raise e
  end.

Notation "x <- r ;; k" := (bind r (fun x => k))
  (at level 61, r at next level, right associativity).

(* ================================================================== *)
(** ** The [str] methods used by the script *)

Module Str.

(** Characters removed by [str.strip()] with no argument. *)
Definition isspace (c : ascii) : bool :=
  let n := nat_of_ascii c in
  ((9 <=? n)%nat && (n <=? 13)%nat) || ((28 <=? n)%nat && (n <=? 32)%nat).

Fixpoint lstrip (s : string) : string :=
  match s with
  | EmptyString => EmptyString
  | String c s' => if isspace c then lstrip s' else s
  end.

Fixpoint rstrip (s : string) : string :=
  match s with
  | EmptyString => EmptyString
  | String c s' =>
      match rstrip s' with
      | EmptyString => if isspace c then EmptyString else String c EmptyString
      | r => String c r
      end
  end.

Definition strip (s : string) : string := rstrip (lstrip s).

(** [s.split(sep)] for a one-character separator: every occurrence cuts,
    empty pieces are kept, and the result is never empty. *)
Fixpoint split (sep : ascii) (s : string) : list string :=
  match s with
  | EmptyString => [EmptyString]
  | String c s' =>
      if Ascii.eqb c sep then EmptyString :: split sep s'
      else match split sep s' with
           | [] => [String c EmptyString]
           | p :: ps => String c p :: ps
           end
  end.

(** [s.endswith(suffix)]: some tail of [s] is [suffix]. *)
Fixpoint endswith (s suffix : string) : bool :=
  if String.eqb s suffix then true
  else match s with
       | EmptyString => false
       | String _ s' => endswith s' suffix
       end.

Definition lower_char (c : ascii) : ascii :=
  let n := nat_of_ascii c in
  if (65 <=? n)%nat && (n <=? 90)%nat then ascii_of_nat (n + 32) else c.

Fixpoint lower (s : string) : string :=
  match s with
  | EmptyString => EmptyString
  | String c s' => String (lower_char c) (lower s')
  end.

(** [s.replace(old, new)] for one-character [old] and [new]. *)
Fixpoint replace (old new : ascii) (s : string) : string :=
  match s with
  | EmptyString => EmptyString
  | String c s' => String (if Ascii.eqb c old then new else c) (replace old new s')
  end.

End Str.

(* ================================================================== *)
(** ** The element tree of lxml *)

Module Etree.

Unset Elimination Schemes.
Inductive element : Type :=
| Element (tag : string) (text : option string) (children : list element).
Set Elimination Schemes.

Definition tag (e : element) : string := let 'Element t _ _ := e in t.
Definition text (e : element) : option string := let 'Element _ x _ := e in x.
Definition children (e : element) : list element := let 'Element _ _ cs := e in cs.

Section element_ind.
Variable P : element -> Prop.
Hypothesis P_Element :
  forall t x cs, Forall P cs -> P (Element t x cs).

Fixpoint element_ind (e : element) : P e :=
  match e with
  | Element t x cs =>
      P_Element t x
        ((fix all (l : list element) : Forall P l :=
            match l with
            | [] => Forall_nil P
            | c :: l' => Forall_cons c (element_ind c) (all l')
            end) cs)
  end.
End element_ind.

(** [elem.find('.//' + t)]: the first descendant of [elem], in document
    order, whose tag is [t]; [None] when there is none. *)
Fixpoint find (t : string) (e : element) : option element :=
  match e with
  | Element _ _ cs =>
      (fix find_in (l : list element) : option element :=
         match l with
         | [] => None
         | c :: l' =>
             if String.eqb (tag c) t then Some c
             else match find t c with
                  | Some d => Some d
                  | None => find_in l'
                  end
         end) cs
  end.

Fixpoint find_in (t : string) (l : list element) : option element :=
  match l with
  | [] => None
  | c :: l' =>
      if String.eqb (tag c) t then Some c
      else match find t c with
           | Some d => Some d
           | None => find_in t l'
           end
  end.

(** [elem.clear()]: text and children (and attributes and tail, which the
    model does not carry) are dropped; the tag stays. *)
Definition clear (e : element) : element := Element (tag e) None [].

(** Number of element nodes of a tree. *)
Fixpoint size (e : element) : nat :=
  match e with
  | Element _ _ cs =>
      S ((fix total (l : list element) : nat :=
            match l with
            | [] => 0
            | c :: l' => size c + total l'
            end) cs)
  end.

Fixpoint total_size (l : list element) : nat :=
  match l with
  | [] => 0
  | c :: l' => size c + total_size l'
  end.

End Etree.
Import Etree.

Definition KML_NS : string := "{http://www.opengis.net/kml/2.2}".
Definition Placemark_tag : string := KML_NS ++ "Placemark".
Definition name_tag : string := KML_NS ++ "name".
Definition coordinates_tag : string := KML_NS ++ "coordinates".

(* ================================================================== *)
(** ** The extractor: [parse_kml] *)

(** One row of the data frame: the dict appended at lines 87-91.  [name] is
    [elem.find(...).text], which is [None] for a name element without text. *)
Record LocationRecord (float64 : Type) : Type := mkRecord {
  name : option string;
  longitude : float64;
  latitude : float64
}.
Arguments mkRecord {float64} name longitude latitude.

Section Extractor.

(** Python's [float]: the value read from a string, or [None] where
    [float(s)] raises [ValueError]. *)
Variable float64 : Type.
Variable float : string -> option float64.

Definition DataFrame : Type := list (LocationRecord float64).

(** [float(s)] as a computation. *)
Definition py_float (s : string) : result float64 :=
  match float s with
  | Some x => Ok x
  | None => Raise (FloatError s)
  end.

(** [.text] of the result of a [find], which may be [None]. *)
Definition text_of (found : option element) : result (option string) :=
  match found with
  | Some e => Ok (text e)
  | None => Raise (AttributeError "text")
  end.

(** [.strip()] of a text, which may be [None]. *)
Definition strip_of (t : option string) : result string :=
  match t with
  | Some s => Ok (Str.strip s)
  | None => Raise (AttributeError "strip")
  end.

(** Lines 83-86: the two unpacking assignments. *)
Definition unpack (coord_parts : list string) : result (string * string) :=
  if Nat.eqb (length coord_parts) 3 then
    match coord_parts with
    | [lon; lat; _] => Ok (lon, lat)
    | _ => Raise (UnpackError 3 (length coord_parts))
    end
  else
    match coord_parts with
    | [lon; lat] => Ok (lon, lat)
    | _ => Raise (UnpackError 2 (length coord_parts))
    end.

(** Lines 80-91: the row that one placemark contributes. *)
Definition placemark_row (elem : element) : result (LocationRecord float64) :=
  name <- text_of (find name_tag elem) ;;
  coord_text <- text_of (find coordinates_tag elem) ;;
  coordinates <- strip_of coord_text ;;
  let coord_parts := Str.split "," coordinates in
  lonlat <- unpack coord_parts ;;
  lon <- py_float (fst lonlat) ;;
  lat <- py_float (snd lonlat) ;;
  Ok (mkRecord name lon lat).

(** The loop variables [data] and [placemark_count]. *)
Definition loop_state : Type := (DataFrame * nat)%type.

(** One iteration of the loop, lines 80-95, without the release of the
    element (lines 92-94), which [iterparse_loop] performs on the tree. *)
Definition loop_body (elem : element) (st : loop_state) : result loop_state :=
  row <- placemark_row elem ;;
  Ok (fst st ++ [row], S (snd st)).

Definition is_placemark (e : element) : bool := String.eqb (tag e) Placemark_tag.

(** [etree.iterparse(..., events=('end',), tag=Placemark)] together with
    the loop that consumes it.  The parser builds the tree while it reads;
    at the closing tag of an element all its children are complete, and
    when the element is a Placemark the loop body runs on it, then clears
    it (line 92) and deletes its preceding siblings from its parent (lines
    93-94).  The function returns the element as it is left in the tree:
    [kept] are the earlier siblings still attached to the parent.  The
    deletion cannot fail on an element that has a parent; the one case where
    it does fail in lxml, a comment or processing instruction before a root
    Placemark, is not a tree of this model. *)
Fixpoint iterparse_loop (e : element) (st : loop_state) {struct e}
  : result (element * loop_state) :=
  match e with
  | Element t x cs =>
      r <- (fix siblings (l kept : list element) (st : loop_state) {struct l}
              : result (list element * loop_state) :=
              match l with
              | [] => Ok (kept, st)
              | c :: l' =>
                  r <- iterparse_loop c st ;;
                  if is_placemark c then siblings l' [fst r] (snd r)
                  else siblings l' (kept ++ [fst r]) (snd r)
              end) cs [] st ;;
      let elem := Element t x (fst r) in
      if String.eqb t Placemark_tag then
        st' <- loop_body elem (snd r) ;;
        Ok (clear elem, st')
      else Ok (elem, snd r)
  end.

Fixpoint siblings_loop (l kept : list element) (st : loop_state) {struct l}
  : result (list element * loop_state) :=
  match l with
  | [] => Ok (kept, st)
  | c :: l' =>
      r <- iterparse_loop c st ;;
      if is_placemark c then siblings_loop l' [fst r] (snd r)
      else siblings_loop l' (kept ++ [fst r]) (snd r)
  end.

(** The loop variables after the events of one subtree. *)
Definition state_of (A : Type) (r : result (A * loop_state))
  : result loop_state :=
  r' <- r ;; Ok (snd r').

(** Lines 98-100: the two exception classes that are caught and wrapped;
    every other exception leaves [parse_kml] as it was raised. *)
Definition except_clause (e : exception) : exception :=
  match class_of e with
  | CXMLSyntaxError | CAttributeError => ParsingError e
  | _ => e
  end.

(** [parse_kml] on the document with root element [root]. *)
Definition parse_kml (root : element) : result DataFrame :=
  match iterparse_loop root ([], 0) with
  | Ok r => Ok (fst (snd r))
  | Raise e => Raise (except_clause e)
  end.

(** The tree that is still attached to the root when the loop is over. *)
Definition retained (root : element) : option element :=
  match iterparse_loop root ([], 0) with
  | Ok r => Some (fst r)
  | Raise _ => None
  end.

(** The loop alone, over the placemarks in the order they are closed. *)
Fixpoint rows_loop (ps : list element) (st : loop_state) : result loop_state :=
  match ps with
  | [] => Ok st
  | p :: ps' => st' <- loop_body p st ;; rows_loop ps' st'
  end.

(** The first placemark, counted from [ordinal], on which the loop body
    raises, with the exception it raises there. *)
Fixpoint first_failure (ps : list element) (ordinal : nat)
  : option (nat * exception) :=
  match ps with
  | [] => None
  | p :: ps' =>
      match placemark_row p with
      | Raise e => Some (ordinal, e)
      | Ok _ => first_failure ps' (S ordinal)
      end
  end.

End Extractor.

(** The Placemark elements of a document in document order.  A Placemark
    is not searched for further Placemarks: KML does not nest them. *)
Fixpoint placemarks (e : element) : list element :=
  match e with
  | Element t x cs =>
      if String.eqb t Placemark_tag then [e]
      else (fix within (l : list element) : list element :=
              match l with
              | [] => []
              | c :: l' => placemarks c ++ within l'
              end) cs
  end.

Fixpoint placemarks_in (l : list element) : list element :=
  match l with
  | [] => []
  | c :: l' => placemarks c ++ placemarks_in l'
  end.

(** The number of Placemark elements of a tree, wherever they are. *)
Fixpoint count_placemarks (e : element) : nat :=
  match e with
  | Element t x cs =>
      (if String.eqb t Placemark_tag then 1 else 0)
      + (fix within (l : list element) : nat :=
           match l with
           | [] => 0
           | c :: l' => count_placemarks c + within l'
           end) cs
  end.

Fixpoint count_placemarks_in (l : list element) : nat :=
  match l with
  | [] => 0
  | c :: l' => count_placemarks c + count_placemarks_in l'
  end.

(** No element of the tree, the root included, is a Placemark. *)
Fixpoint placemark_free (e : element) : bool :=
  match e with
  | Element t x cs => negb (String.eqb t Placemark_tag) && forallb placemark_free cs
  end.

(** A KML document: no Placemark lies inside another Placemark. *)
Fixpoint well_formed_kml (e : element) : bool :=
  match e with
  | Element t x cs =>
      if String.eqb t Placemark_tag then forallb placemark_free cs
      else forallb well_formed_kml cs
  end.

(** The release discipline of lines 92-94, read off a tree: every Placemark
    element in it is cleared, and none has a preceding sibling. *)
Definition cleared (e : element) : bool :=
  match e with
  | Element _ None [] => true
  | _ => false
  end.

Definition first_only (l : list element) : bool :=
  match l with
  | [] => true
  | _ :: l' => forallb (fun c => negb (is_placemark c)) l'
  end.

Fixpoint released (e : element) : bool :=
  match e with
  | Element t x cs =>
      (if String.eqb t Placemark_tag then cleared e else true)
      && forallb released cs
      && first_only cs
  end.

(** The coordinate string of a placemark, stripped and split on commas:
    [None] when the placemark has no coordinates element or that element has
    no text. *)
Definition coordinate_parts (p : element) : option (list string) :=
  match find coordinates_tag p with
  | Some c =>
      match text c with
      | Some s => Some (Str.split "," (Str.strip s))
      | None => None
      end
  | None => None
  end.

(** A placemark with a name, coordinates, and a coordinate string of two or
    three numeric parts. *)
Definition well_formed_placemark (float64 : Type)
  (float : string -> option float64) (p : element) : Prop :=
  find name_tag p <> None /\
  exists parts, coordinate_parts p = Some parts /\
    (length parts = 2 \/ length parts = 3) /\
    Forall (fun part => float part <> None) parts.

(** The offending placemark of a document: its 1-based ordinal in document
    order and the exception raised on it. *)
Definition offending (float64 : Type) (float : string -> option float64)
  (root : element) : option (nat * exception) :=
  first_failure float (placemarks root) 1.

(** Size of the largest Placemark of a document (0 when it has none). *)
Definition largest_placemark (root : element) : nat :=
  fold_right (fun p m => Nat.max (size p) m) 0 (placemarks root).

(* ================================================================== *)
(** ** The prompts and the file check *)

(** [get_kml_filename], as a function of the line the user typed. *)
Definition get_kml_filename (user_input : string) : string :=
  if String.eqb user_input "" then "Locations.kml"
  else if negb (Str.endswith user_input ".kml") then (user_input ++ ".kml")%string
  else user_input.

(** [validate_kml_file]; [isfile] is [os.path.isfile] on the current file
    system. *)
Definition validate_kml_file (isfile : string -> bool) (kml_file : string)
  : result string :=
  if negb (isfile kml_file) then Raise (FileNotFoundError kml_file)
  else if negb (Str.endswith kml_file ".kml") then Raise (NotKmlError kml_file)
  else Ok kml_file.

(** The dict literal of [choose_plot_type], in insertion order. *)
Definition plot_types : list (string * string) :=
  [ ("1", "Scatter Plot"); ("2", "Density Plot"); ("3", "Lines Plot"); ("A", "All") ].

(** [d.get(key, default)]. *)
Fixpoint dict_get (d : list (string * string)) (key default : string) : string :=
  match d with
  | [] => default
  | (k, v) :: d' => if String.eqb k key then v else dict_get d' key default
  end.

(** [choose_plot_type], as a function of the line the user typed. *)
Definition choose_plot_type (choice : string) : string :=
  dict_get plot_types choice "Scatter Plot".

(* ================================================================== *)
(** ** The export coordinator *)

(** The collaborators of the coordinator: plotly's three chart builders,
    [fig.update_layout], [fig.write_html] ([None] when the file was written)
    and the clock read by [export_plot] (its argument counts the calls). *)
Class Collaborators (DF Fig : Type) : Type := {
  px_scatter_mapbox : DF -> result Fig;
  px_density_mapbox : DF -> result Fig;
  px_line_geo : DF -> result Fig;
  update_layout : Fig -> Fig;
  write_html : Fig -> string -> option exception;
  strftime_now : nat -> string
}.

(** What [export_all_plots] leaves behind for one future: a file written
    by [export_plot] or an error written to the log at line 171. *)
Inductive outcome (Fig : Type) : Type :=
| Saved (plot_name html_file : string) (fig : Fig)
| Failed (plot_name : string) (e : exception).
Arguments Saved {Fig} plot_name html_file fig.
Arguments Failed {Fig} plot_name e.

(** A future of the pool: its identity and the result its task ends with.
    The three tasks share only the data frame, which none of them changes,
    so the result of a task is that of its own call. *)
Record future (Fig : Type) : Type := mkFuture {
  future_id : nat;
  future_result : result Fig
}.
Arguments mkFuture {Fig} future_id future_result.

Definition export_plot_types : list string :=
  ["Scatter Plot"; "Density Plot"; "Lines Plot"].

Definition plot_name_of (plot_type : string) : string :=
  Str.replace " " "_" (Str.lower plot_type).

Section Coordinator.

Context {DF Fig : Type} {ext : Collaborators DF Fig}.

Definition create_map (df : DF) (plot_type : string) : result Fig :=
  fig <- (if String.eqb plot_type "Scatter Plot" then px_scatter_mapbox df
          else if String.eqb plot_type "Density Plot" then px_density_mapbox df
          else if String.eqb plot_type "Lines Plot" then px_line_geo df
          else Raise (UnknownPlotType plot_type)) ;;
  Ok (update_layout fig).

Definition outcome_name (o : outcome Fig) : string :=
  match o with
  | Saved plot_name _ _ => plot_name
  | Failed plot_name _ => plot_name
  end.

(** [export_plot]; [tick] counts the calls made so far, for the clock. *)
Definition export_plot (tick : nat) (fig : Fig) (plot_name : string)
  : result (outcome Fig) :=
  let timestamp := strftime_now tick in
  let html_file := (timestamp ++ "_" ++ plot_name ++ ".html")%string in
  match write_html fig html_file with
  | None => Ok (Saved plot_name html_file fig)
  | Some e => Raise e
  end.

(** Line 164: the dict from each submitted future to its plot name. *)
Fixpoint submit_all (df : DF) (next_id : nat) (types : list string)
  : list (future Fig * string) :=
  match types with
  | [] => []
  | plot_type :: types' =>
      (mkFuture next_id (create_map df plot_type), plot_name_of plot_type)
        :: submit_all df (S next_id) types'
  end.

Definition futures (df : DF) : list (future Fig * string) :=
  submit_all df 0 export_plot_types.

(** [futures[future]]; a missing key raises [KeyError]. *)
Fixpoint futures_getitem (d : list (future Fig * string)) (f : future Fig)
  : result string :=
  match d with
  | [] => Raise (OtherException "KeyError")
  | (k, v) :: d' =>
      if Nat.eqb (future_id k) (future_id f) then Ok v else futures_getitem d' f
  end.

(** The plot name under which a future is filed in the dict. *)
Definition filed_as (d : list (future Fig * string)) (f : future Fig) : string :=
  match futures_getitem d f with
  | Ok v => v
  | Raise _ => EmptyString
  end.

(** Lines 166-171 for one completed future: the [try] catches every
    exception of the body. *)
Definition collect (d : list (future Fig * string)) (tick : nat) (f : future Fig)
  : result (outcome Fig) :=
  plot_name <- futures_getitem d f ;;
  match (fig <- future_result f ;; export_plot tick fig plot_name) with
  | Ok o => Ok o
  | Raise e => Ok (Failed plot_name e)
  end.

Fixpoint collect_all (d : list (future Fig * string)) (tick : nat)
  (completed : list (future Fig)) : result (list (outcome Fig)) :=
  match completed with
  | [] => Ok []
  | f :: completed' =>
      o <- collect d tick f ;;
      os <- collect_all d (S tick) completed' ;;
      Ok (o :: os)
  end.

(** [export_all_plots]; [completed] is the order in which [as_completed]
    hands the futures over. *)
Definition export_all_plots (df : DF) (completed : list (future Fig))
  : result (list (outcome Fig)) :=
  collect_all (futures df) 0 completed.

End Coordinator.

(** The files that a list of outcomes says were written. *)
Fixpoint saved_files (Fig : Type) (outcomes : list (outcome Fig)) : list string :=
  match outcomes with
  | [] => []
  | Saved _ html_file _ :: outcomes' => html_file :: saved_files outcomes'
  | Failed _ _ :: outcomes' => saved_files outcomes'
  end.

(* ================================================================== *)
(** ** Output names: [get_output_filename], [get_html_filename] *)

(** Occurrences of a character in a string. *)
Fixpoint count_char (c : ascii) (s : string) : nat :=
  match s with
  | EmptyString => 0
  | String a s' => (if Ascii.eqb a c then 1 else 0) + count_char c s'
  end.

(** A string of white space only. *)
Fixpoint all_space (s : string) : bool :=
  match s with
  | EmptyString => true
  | String c s' => Str.isspace c && all_space s'
  end.

(** [os.path] as it is on POSIX systems ([posixpath]): the only separator
    is the slash. *)
Module Posixpath.

(** [s.rpartition(sep)] for a one-character separator: the text before and
    after the last occurrence, [None] when there is none. *)
Fixpoint rpartition (sep : ascii) (s : string) : option (string * string) :=
  match s with
  | EmptyString => None
  | String c s' =>
      match rpartition sep s' with
      | Some (head, tail) => Some (String c head, tail)
      | None => if Ascii.eqb c sep then Some (EmptyString, s') else None
      end
  end.

(** [os.path.basename(p)]: what follows the last slash. *)
Definition basename (p : string) : string :=
  match rpartition "/" p with
  | Some (_, tail) => tail
  | None => p
  end.

Fixpoint all_dots (s : string) : bool :=
  match s with
  | EmptyString => true
  | String c s' => Ascii.eqb c "." && all_dots s'
  end.

(** [os.path.splitext(p)]: the extension starts at the last dot of the
    file name, unless only dots come before it in the file name. *)
Definition splitext (p : string) : string * string :=
  let '(dir, file) :=
    match rpartition "/" p with
    | Some (head, tail) => ((head ++ "/")%string, tail)
    | None => (EmptyString, p)
    end in
  match rpartition "." file with
  | Some (stem, ext) =>
      if all_dots stem then (p, EmptyString)
      else ((dir ++ stem)%string, String "." ext)
  | None => (p, EmptyString)
  end.

End Posixpath.

(** [get_output_filename]; [timestamp] is the clock reading of line 176. *)
Definition get_output_filename (timestamp kml_file : string) : string :=
  let base_name := fst (Posixpath.splitext (Posixpath.basename kml_file)) in
  (timestamp ++ "_" ++ base_name ++ ".csv")%string.

(** [get_html_filename], as a function of the clock reading of line 150 and
    of the line the user typed. *)
Definition get_html_filename (timestamp default_name user_input : string) : string :=
  if String.eqb user_input "" then (timestamp ++ "_" ++ default_name)%string
  else if negb (Str.endswith user_input ".html") then (user_input ++ ".html")%string
  else user_input.

(* ================================================================== *)
(** ** The workflow: [main] *)

(** What [main] needs besides the collaborators of the coordinator: the
    file system ([os.path.isfile], and the tree of the document stored under
    a name), [df.to_csv] and [fig.show] ([None] when they return), and the
    order in which [as_completed] hands over a set of futures. *)
Class Host (DF Fig : Type) : Type := {
  isfile : string -> bool;
  document_at : string -> element;
  to_csv : DF -> string -> option exception;
  show : Fig -> option exception;
  as_completed : list (future Fig) -> list (future Fig)
}.

(** What a run of [main] does to the outside, in order. *)
Inductive effect (DF Fig : Type) : Type :=
| CsvSaved (output_file : string) (df : DF)
| Shown (fig : Fig)
| HtmlWritten (html_file : string) (fig : Fig)
| Plot (o : outcome Fig)
| Printed (e : exception).
Arguments CsvSaved {DF Fig} output_file df.
Arguments Shown {DF Fig} fig.
Arguments HtmlWritten {DF Fig} html_file fig.
Arguments Plot {DF Fig} o.
Arguments Printed {DF Fig} e.

(** The collaborators as they are after [n] readings of the clock. *)
Definition later (DF Fig : Type) (n : nat) (ext : Collaborators DF Fig)
  : Collaborators DF Fig := {|
  px_scatter_mapbox := px_scatter_mapbox;
  px_density_mapbox := px_density_mapbox;
  px_line_geo := px_line_geo;
  update_layout := update_layout;
  write_html := write_html;
  strftime_now := fun k => strftime_now (n + k)
|}.

Section Main.

Variable float64 : Type.
Variable float : string -> option float64.
Context {Fig : Type}.
Context {ext : Collaborators (DataFrame float64) Fig}.
Context {host : Host (DataFrame float64) Fig}.

(** A run so far: the effects, and the exception that ended it if any. *)
Definition run : Type := (list (effect (DataFrame float64) Fig) * option exception)%type.

(** Lines 202-213: what follows the saving of the CSV file. *)
Definition plot_step (df : DataFrame float64) (choice html_input : string) : run :=
  let plot_type := choose_plot_type choice in
  if String.eqb plot_type "All" then
    match export_all_plots (ext := later 1 ext) df
            (as_completed (map fst (futures (ext := later 1 ext) df))) with
    | Ok outcomes => (map Plot outcomes, None)
    | Raise e => ([], Some e)
    end
  else
    match create_map df plot_type with
    | Raise e => ([], Some e)
    | Ok fig =>
        let plot_name := plot_name_of plot_type in
        let html_file :=
          get_html_filename (strftime_now 1) (plot_name ++ ".html")%string html_input in
        match show fig with
        | Some e => ([], Some e)
        | None =>
            match write_html fig html_file with
            | Some e => ([Shown fig], Some e)
            | None => ([Shown fig; HtmlWritten html_file fig], None)
            end
        end
    end.

(** Lines 194-213: the body of the [try]; the three strings are the lines
    typed at the three prompts (a prompt that is not reached reads
    nothing). *)
Definition main_try (kml_input choice html_input : string) : run :=
  let kml_file := get_kml_filename kml_input in
  match validate_kml_file isfile kml_file with
  | Raise e => ([], Some e)
  | Ok _ =>
      match parse_kml float (document_at kml_file) with
      | Raise e => ([], Some e)
      | Ok df =>
          let output_file := get_output_filename (strftime_now 0) kml_file in
          match to_csv df output_file with
          | Some e => ([], Some e)
          | None =>
              let r := plot_step df choice html_input in
              (CsvSaved output_file df :: fst r, snd r)
          end
      end
  end.

(** Lines 214-216: the classes that [main] catches. *)
Definition caught (e : exception) : bool :=
  match class_of e with
  | CFileNotFoundError | CValueError => true
  | _ => false
  end.

(** [main]: the effects of the run, and the exception that leaves it. *)
Definition main (kml_input choice html_input : string) : run :=
  match main_try kml_input choice html_input with
  | (effects, Some e) =>
      if caught e then (effects ++ [Printed e], None) else (effects, Some e)
  | r => r
  end.

(** The effects that write a plot or a chart window. *)
Definition is_plot_effect (f : effect (DataFrame float64) Fig) : bool :=
  match f with
  | Shown _ | HtmlWritten _ _ | Plot _ => true
  | _ => false
  end.

Definition is_csv_effect (f : effect (DataFrame float64) Fig) : bool :=
  match f with
  | CsvSaved _ _ => true
  | _ => false
  end.

End Main.

(* ================================================================== *)
(** ** A reader of decimal literals

    Python's [float] accepts, among others, every literal of the form
    [[+-]digits[.digits]] with at least one digit, with white space around
    it.  [decimal_float] reads exactly those and keeps the value as a reduced
    fraction; it serves as a concrete [float] where one is needed. *)

Module Decimal.

Definition digit_of (c : ascii) : option Z :=
  let n := nat_of_ascii c in
  if (48 <=? n)%nat && (n <=? 57)%nat then Some (Z.of_nat (n - 48)) else None.

(** Reads digits after the point: mantissa so far [m], digits read [k]. *)
Fixpoint fraction (s : string) (m : Z) (k : nat) (seen : bool) : option (Z * nat) :=
  match s with
  | EmptyString => if seen then Some (m, k) else None
  | String c s' =>
      match digit_of c with
      | Some d => fraction s' (10 * m + d)%Z (S k) true
      | None => None
      end
  end.

(** Reads the digits before the point. *)
Fixpoint integer (s : string) (m : Z) (seen : bool) : option (Z * nat) :=
  match s with
  | EmptyString => if seen then Some (m, 0) else None
  | String c s' =>
      if Ascii.eqb c "." then fraction s' m 0 seen
      else match digit_of c with
           | Some d => integer s' (10 * m + d)%Z true
           | None => None
           end
  end.

Definition value (neg : bool) (mk : Z * nat) : Q :=
  let m := if neg then (- fst mk)%Z else fst mk in
  Qred (Qmake m (Z.to_pos (10 ^ Z.of_nat (snd mk)))).

Definition unsigned (neg : bool) (s : string) : option Q :=
  match integer s 0 false with
  | Some mk => Some (value neg mk)
  | None => None
  end.

Definition decimal_float (s : string) : option Q :=
  match Str.strip s with
  | String "-" s' => unsigned true s'
  | String "+" s' => unsigned false s'
  | s' => unsigned false s'
  end.

End Decimal.
Import Decimal.

(* ================================================================== *)
(** ** Sample documents *)

Definition el (t : string) (x : option string) (cs : list element) : element :=
  Element (KML_NS ++ t) x cs.

(** A placemark as exporters write it: a name and a point. *)
Definition point_placemark (n c : string) : element :=
  el "Placemark" None
    [el "name" (Some n) []; el "Point" None [el "coordinates" (Some c) []]].

(** A document whose placemarks sit in one folder each. *)
Definition one_per_folder (n : nat) : element :=
  el "kml" None (repeat (el "Folder" None [point_placemark "A" "1,2"]) n).

(** The two placemarks of the end-to-end example, under a named Document. *)
Definition two_placemarks : element :=
  el "kml" None
    [el "Document" None
       [el "name" (Some "doc") [];
        point_placemark "A" "10.0,20.0";
        point_placemark "B" "-5.5,30.1,100"]].

Definition no_placemark : element :=
  el "kml" None [el "Document" None [el "name" (Some "doc") []]].

Definition one_part_second : element :=
  el "kml" None [point_placemark "A" "10.0,20.0"; point_placemark "B" "7"].

(** A placemark inside a placemark, which KML does not allow. *)
Definition nested_placemark : element :=
  el "kml" None
    [el "Placemark" None
       [el "name" (Some "A") [];
        point_placemark "B" "1,2";
        el "Point" None [el "coordinates" (Some "3,4") []]]].

Definition bad_altitude : element :=
  el "kml" None [point_placemark "A" "10.0,20.0,abc"].

Definition bad_longitude_first : element :=
  el "kml" None [point_placemark "B" "x,1"].

Definition bad_longitude_second : element :=
  el "kml" None [point_placemark "A" "1,2"; point_placemark "B" "x,1"].

(** Collaborators of which the density chart fails and the others work. *)
Definition density_fails : Collaborators unit string := {|
  px_scatter_mapbox := fun _ => Ok "scatter";
  px_density_mapbox := fun _ => Raise (OtherException "no density");
  px_line_geo := fun _ => Ok "lines";
  update_layout := fun fig => fig;
  write_html := fun _ _ => None;
  strftime_now := fun _ => "261104120000"
|}.

(** The futures of [density_fails], lines first. *)
Definition lines_first : list (future string) :=
  [mkFuture 2 (Ok "lines"); mkFuture 0 (Ok "scatter");
   mkFuture 1 (Raise (OtherException "no density"))].


Definition no_name_second : element :=
  el "kml" None
    [point_placemark "A" "10.0,20.0";
     el "Placemark" None [el "Point" None [el "coordinates" (Some "1,2") []]]].

(** Chart builders over extracted data of which the density chart fails
    with an exception that [main] does not catch. *)
Definition charts : Collaborators (DataFrame Q) string := {|
  px_scatter_mapbox := fun _ => Ok "scatter";
  px_density_mapbox := fun _ => Raise (OtherException "no density");
  px_line_geo := fun _ => Ok "lines";
  update_layout := fun fig => fig;
  write_html := fun _ _ => None;
  strftime_now := fun _ => "261104120000"
|}.

(** A directory that holds [Locations.kml] with the document [doc] and
    nothing else; futures complete in the reverse of the submission order. *)
Definition directory (doc : element) : Host (DataFrame Q) string := {|
  isfile := fun f => String.eqb f "Locations.kml";
  document_at := fun _ => doc;
  to_csv := fun _ _ => None;
  show := fun _ => None;
  as_completed := fun fs => rev fs
|}.

(** Chart builders that all work. *)
Definition all_charts : Collaborators unit string := {|
  px_scatter_mapbox := fun _ => Ok "scatter";
  px_density_mapbox := fun _ => Ok "density";
  px_line_geo := fun _ => Ok "lines";
  update_layout := fun fig => fig;
  write_html := fun _ _ => None;
  strftime_now := fun _ => "261104120000"
|}.

(** The futures of [all_charts], in the order of submission. *)
Definition in_order : list (future string) :=
  [mkFuture 0 (Ok "scatter"); mkFuture 1 (Ok "density"); mkFuture 2 (Ok "lines")].

(** Chart builders over extracted data of which the density chart does not
    find what it needs, with a target directory that is not there: both
    failures are [FileNotFoundError]s. *)
Definition charts_unwritable : Collaborators (DataFrame Q) string := {|
  px_scatter_mapbox := fun _ => Ok "scatter";
  px_density_mapbox := fun _ => Raise (FileNotFoundError "density");
  px_line_geo := fun _ => Ok "lines";
  update_layout := fun fig => fig;
  write_html := fun _ html_file => Some (FileNotFoundError html_file);
  strftime_now := fun _ => "261104120000"
|}.

(** Chart builders over extracted data that all work. *)
Definition charts_ok : Collaborators (DataFrame Q) string := {|
  px_scatter_mapbox := fun _ => Ok "scatter";
  px_density_mapbox := fun _ => Ok "density";
  px_line_geo := fun _ => Ok "lines";
  update_layout := fun fig => fig;
  write_html := fun _ _ => None;
  strftime_now := fun _ => "261104120000"
|}.

(* ================================================================== *)
(** * Properties *)

Unset Implicit Arguments.

(** ** Strings *)

Lemma split_not_nil (sep : ascii) (s : string) : Str.split sep s <> [].
Proof.
  destruct s as [|c s]; simpl; [discriminate|].
  destruct (Ascii.eqb c sep); [discriminate|].
  destruct (Str.split sep s); discriminate.
Qed.

Lemma endswith_refl (s : string) : Str.endswith s s = true.
Proof. destruct s; cbn [Str.endswith]; rewrite String.eqb_refl; reflexivity. Qed.

Lemma endswith_append (a suffix : string) :
  Str.endswith (a ++ suffix)%string suffix = true.
Proof.
  induction a as [|c a IH].
  - apply endswith_refl.
  - cbn [append Str.endswith]. rewrite IH. destruct (String.eqb _ _); reflexivity.
Qed.

(** ** The element tree *)

Lemma find_eq (t t' : string) (x : option string) (cs : list element) :
  find t (Element t' x cs) = find_in t cs.
Proof.
  induction cs as [|c cs IH]; [reflexivity|].
  simpl in *. rewrite IH. reflexivity.
Qed.

Lemma size_eq (t : string) (x : option string) (cs : list element) :
  size (Element t x cs) = S (total_size cs).
Proof. reflexivity. Qed.

Lemma placemarks_eq (t : string) (x : option string) (cs : list element) :
  placemarks (Element t x cs) =
  if String.eqb t Placemark_tag then [Element t x cs] else placemarks_in cs.
Proof.
  simpl. destruct (String.eqb t Placemark_tag); reflexivity.
Qed.

Lemma count_placemarks_eq (t : string) (x : option string) (cs : list element) :
  count_placemarks (Element t x cs) =
  (if String.eqb t Placemark_tag then 1 else 0) + count_placemarks_in cs.
Proof. reflexivity. Qed.

Lemma placemark_free_count (e : element) :
  placemark_free e = true -> count_placemarks e = 0.
Proof.
  induction e as [t x cs IH] using element_ind. intros H.
  cbn [placemark_free] in H. apply andb_prop in H as [Ht Hcs].
  apply negb_true_iff in Ht. rewrite count_placemarks_eq, Ht.
  induction cs as [|c cs IHcs]; [reflexivity|].
  cbn [forallb] in Hcs. apply andb_prop in Hcs as [Hc Hcs].
  inversion IH as [|? ? IHc IHrest]; subst.
  cbn [count_placemarks_in]. rewrite (IHc Hc).
  apply (IHcs IHrest Hcs).
Qed.

(** In a KML document [placemarks] lists every Placemark element. *)
Lemma placemarks_count (e : element) :
  well_formed_kml e = true -> length (placemarks e) = count_placemarks e.
Proof.
  induction e as [t x cs IH] using element_ind. intros H.
  rewrite placemarks_eq, count_placemarks_eq. cbn [well_formed_kml] in H.
  destruct (String.eqb t Placemark_tag).
  - assert (E : count_placemarks_in cs = 0).
    { clear IH. induction cs as [|c cs IHcs]; [reflexivity|].
      cbn [forallb] in H. apply andb_prop in H as [Hc Hcs].
      cbn [count_placemarks_in]. rewrite (placemark_free_count c Hc).
      apply (IHcs Hcs). }
    rewrite E. reflexivity.
  - induction cs as [|c cs IHcs]; [reflexivity|].
    cbn [forallb] in H. apply andb_prop in H as [Hc Hcs].
    inversion IH as [|? ? IHc IHrest]; subst.
    cbn [placemarks_in count_placemarks_in]. rewrite length_app, (IHc Hc).
    cbn [Nat.add] in *. rewrite (IHcs IHrest Hcs). reflexivity.
Qed.

Lemma total_size_app (l1 l2 : list element) :
  total_size (l1 ++ l2) = total_size l1 + total_size l2.
Proof. induction l1 as [|c l1 IH]; simpl; lia. Qed.

(** ** The extraction loop *)

Section ExtractorFacts.

Variable float64 : Type.
Variable float : string -> option float64.

Lemma iterparse_loop_eq (t : string) (x : option string) (cs : list element)
  (st : loop_state float64) :
  iterparse_loop float (Element t x cs) st =
  (r <- siblings_loop float cs [] st ;;
   let elem := Element t x (fst r) in
   if String.eqb t Placemark_tag then
     st' <- loop_body float elem (snd r) ;; Ok (clear elem, st')
   else Ok (elem, snd r)).
Proof. reflexivity. Qed.

Lemma siblings_loop_cons (c : element) (l kept : list element)
  (st : loop_state float64) :
  siblings_loop float (c :: l) kept st =
  (r <- iterparse_loop float c st ;;
   if is_placemark c then siblings_loop float l [fst r] (snd r)
   else siblings_loop float l (kept ++ [fst r]) (snd r)).
Proof. reflexivity. Qed.

(** A subtree without placemarks is built and left as it is. *)
Lemma iterparse_loop_placemark_free (e : element) :
  placemark_free e = true ->
  forall st, iterparse_loop float e st = Ok (e, st).
Proof.
  induction e as [t x cs IH] using element_ind.
  intros Hfree st. simpl in Hfree. apply andb_prop in Hfree as [Ht Hcs].
  apply negb_true_iff in Ht.
  assert (Hsib : forall kept st, siblings_loop float cs kept st = Ok (kept ++ cs, st)).
  { clear Ht. induction cs as [|c cs IHcs]; intros kept st0.
    - simpl. rewrite app_nil_r. reflexivity.
    - simpl in Hcs. apply andb_prop in Hcs as [Hc Hcs].
      inversion IH as [|? ? IHc IHrest]; subst.
      rewrite siblings_loop_cons, (IHc Hc). simpl.
      assert (Hp : is_placemark c = false).
      { destruct c as [tc xc csc]. simpl in Hc. apply andb_prop in Hc as [Hc _].
        apply negb_true_iff in Hc. exact Hc. }
      rewrite Hp, (IHcs IHrest Hcs), <- app_assoc. reflexivity. }
  rewrite iterparse_loop_eq, Hsib. simpl. rewrite Ht. reflexivity.
Qed.

Lemma siblings_loop_placemark_free (l : list element) :
  forallb placemark_free l = true ->
  forall kept st, siblings_loop float l kept st = Ok (kept ++ l, st).
Proof.
  induction l as [|c l IH]; intros Hl kept st.
  - simpl. rewrite app_nil_r. reflexivity.
  - simpl in Hl. apply andb_prop in Hl as [Hc Hl].
    rewrite siblings_loop_cons, (iterparse_loop_placemark_free _ Hc). simpl.
    assert (Hp : is_placemark c = false).
    { destruct c as [tc xc csc]. simpl in Hc. apply andb_prop in Hc as [Hc _].
      apply negb_true_iff in Hc. exact Hc. }
    rewrite Hp, (IH Hl), <- app_assoc. reflexivity.
Qed.

Lemma rows_loop_app (ps qs : list element) (st : loop_state float64) :
  rows_loop float (ps ++ qs) st = (st' <- rows_loop float ps st ;; rows_loop float qs st').
Proof.
  revert st. induction ps as [|p ps IH]; intros st; simpl; [reflexivity|].
  destruct (loop_body float p st) as [st'|e]; simpl; [apply IH|reflexivity].
Qed.

(** On a KML document the traversal runs the loop body on the placemarks
    in document order, each as it stands in the document. *)
Lemma iterparse_loop_rows (e : element) :
  well_formed_kml e = true ->
  forall st, state_of (iterparse_loop float e st) = rows_loop float (placemarks e) st.
Proof.
  induction e as [t x cs IH] using element_ind.
  intros Hwf st. rewrite iterparse_loop_eq, placemarks_eq.
  simpl in Hwf.
  destruct (String.eqb t Placemark_tag) eqn:Ht.
  - rewrite (siblings_loop_placemark_free _ Hwf). cbn [bind fst snd app].
    unfold state_of. cbn [rows_loop].
    destruct (loop_body float (Element t x cs) st); reflexivity.
  - assert (Hsib : forall kept st,
               state_of (siblings_loop float cs kept st) = rows_loop float (placemarks_in cs) st).
    { clear Ht. induction cs as [|c cs IHcs]; intros kept st0; [reflexivity|].
      simpl in Hwf. apply andb_prop in Hwf as [Hc Hcs].
      inversion IH as [|? ? IHc IHrest]; subst.
      rewrite siblings_loop_cons. simpl placemarks_in. rewrite rows_loop_app.
      rewrite <- (IHc Hc st0).
      destruct (iterparse_loop float c st0) as [[c' st1]|ex]; simpl; [|reflexivity].
      destruct (is_placemark c); apply (IHcs IHrest Hcs). }
    specialize (Hsib [] st). unfold state_of in *.
    destruct (siblings_loop float cs [] st) as [[kept' st1]|ex]; simpl in *.
    + exact Hsib.
    + exact Hsib.
Qed.

Lemma parse_kml_rows (root : element) :
  well_formed_kml root = true ->
  parse_kml float root =
  match rows_loop float (placemarks root) ([], 0) with
  | Ok st => Ok (fst st)
  | Raise e => Raise (except_clause e)
  end.
Proof.
  intros Hwf. unfold parse_kml.
  rewrite <- (iterparse_loop_rows root Hwf). unfold state_of.
  destruct (iterparse_loop float root ([], 0)) as [[t st]|e]; reflexivity.
Qed.

(** *** The loop body *)

Lemma unpack_two (lon lat : string) : unpack [lon; lat] = Ok (lon, lat).
Proof. reflexivity. Qed.

Lemma unpack_three (lon lat alt : string) : unpack [lon; lat; alt] = Ok (lon, lat).
Proof. reflexivity. Qed.

Lemma unpack_arity (parts : list string) :
  length parts <> 2 -> length parts <> 3 ->
  unpack parts = Raise (UnpackError 2 (length parts)).
Proof.
  intros H2 H3. unfold unpack.
  destruct (Nat.eqb (length parts) 3) eqn:E; [apply Nat.eqb_eq in E; contradiction|].
  destruct parts as [|a [|b [|c l]]]; try reflexivity.
  simpl in H2. contradiction.
Qed.

Lemma unpack_ok (parts : list string) (lon lat : string) :
  unpack parts = Ok (lon, lat) -> firstn 2 parts = [lon; lat].
Proof.
  unfold unpack.
  destruct parts as [|a [|b [|c [|d l]]]]; simpl; try discriminate;
    intros H; inversion H; reflexivity.
Qed.

(** The row of a placemark whose name and coordinate text are there. *)
Lemma placemark_row_parts (p n : element) (parts : list string) :
  find name_tag p = Some n ->
  coordinate_parts p = Some parts ->
  placemark_row float p =
  (lonlat <- unpack parts ;;
   lon <- py_float float (fst lonlat) ;;
   lat <- py_float float (snd lonlat) ;;
   Ok (mkRecord (text n) lon lat)).
Proof.
  unfold coordinate_parts, placemark_row. intros Hn Hc. rewrite Hn.
  destruct (find coordinates_tag p) as [c|]; [|discriminate].
  cbn [text_of bind]. destruct (text c) as [s|]; [|discriminate].
  inversion Hc; subst. reflexivity.
Qed.

(** Whatever the loop body raises reaches the caller as a [ValueError]. *)
Lemma placemark_row_raises (p : element) (e : exception) :
  placemark_row float p = Raise e ->
  class_of (except_clause e) = CValueError.
Proof.
  unfold placemark_row.
  destruct (find name_tag p) as [n|]; cbn [text_of bind];
    [|intros H; inversion H; reflexivity].
  destruct (find coordinates_tag p) as [c|]; cbn [text_of bind];
    [|intros H; inversion H; reflexivity].
  destruct (text c) as [s|]; cbn [strip_of bind];
    [|intros H; inversion H; reflexivity].
  unfold unpack.
  destruct (Str.split "," (Str.strip s)) as [|a [|b [|c' [|d l]]]];
    cbn [length Nat.eqb bind fst snd];
    try (intros H; inversion H; reflexivity);
    unfold py_float;
    destruct (float a); cbn [bind];
    try (intros H; inversion H; reflexivity);
    destruct (float b); cbn [bind];
    intros H; inversion H; reflexivity.
Qed.

(** *** The loop over the placemarks *)

Lemma rows_loop_ok (ps : list element) (rows : DataFrame float64) :
  Forall2 (fun p row => placemark_row float p = Ok row) ps rows ->
  forall st, rows_loop float ps st = Ok (fst st ++ rows, snd st + length ps).
Proof.
  induction 1 as [|p row ps rows Hp _ IH]; intros [data n].
  - cbn [rows_loop fst snd length]. rewrite app_nil_r, Nat.add_0_r. reflexivity.
  - cbn [rows_loop]. unfold loop_body. rewrite Hp. cbn [bind fst snd].
    rewrite IH. cbn [fst snd length]. rewrite <- app_assoc.
    f_equal. f_equal. lia.
Qed.

Lemma first_failure_raises (ps : list element) :
  forall k i e st,
    first_failure float ps k = Some (i, e) ->
    rows_loop float ps st = Raise e.
Proof.
  induction ps as [|p ps IH]; intros k i e st H; [discriminate|].
  cbn [first_failure] in H. cbn [rows_loop]. unfold loop_body.
  destruct (placemark_row float p) as [row|e0]; cbn [bind].
  - apply (IH _ _ _ _ H).
  - inversion H; reflexivity.
Qed.

Lemma first_failure_exists (ps : list element) (p : element) (e : exception) :
  In p ps -> placemark_row float p = Raise e ->
  forall k, exists i q e',
    first_failure float ps k = Some (i, e') /\
    In q ps /\ placemark_row float q = Raise e'.
Proof.
  induction ps as [|q ps IH]; intros Hin Hp k; [contradiction|].
  cbn [first_failure].
  destruct (placemark_row float q) as [row|e0] eqn:Hq.
  - destruct Hin as [->|Hin]; [congruence|].
    destruct (IH Hin Hp (S k)) as (i & q' & e' & Hf & Hq' & He').
    exists i, q', e'. repeat split; [exact Hf|right; exact Hq'|exact He'].
  - exists k, q, e0. repeat split; [left; reflexivity|exact Hq].
Qed.

(** A placemark on which the loop body raises makes the extraction fail,
    with a [ValueError]. *)
Lemma parse_kml_fails (root p : element) (e : exception) :
  well_formed_kml root = true ->
  In p (placemarks root) ->
  placemark_row float p = Raise e ->
  exists e', parse_kml float root = Raise e' /\ class_of e' = CValueError.
Proof.
  intros Hwf Hin Hp.
  destruct (first_failure_exists _ _ _ Hin Hp 1) as (i & q & e' & Hf & _ & Hq).
  exists (except_clause e'). rewrite (parse_kml_rows root Hwf).
  rewrite (first_failure_raises _ _ _ _ ([], 0) Hf).
  split; [reflexivity|apply (placemark_row_raises _ _ Hq)].
Qed.

(** *** The tree left behind *)

Lemma released_eq (t : string) (x : option string) (cs : list element) :
  released (Element t x cs) =
  (if String.eqb t Placemark_tag then cleared (Element t x cs) else true)
  && forallb released cs && first_only cs.
Proof. reflexivity. Qed.

Lemma iterparse_loop_tag (e e' : element) (st st' : loop_state float64) :
  iterparse_loop float e st = Ok (e', st') -> tag e' = tag e.
Proof.
  destruct e as [t x cs]. rewrite iterparse_loop_eq.
  destruct (siblings_loop float cs [] st) as [[kept st1]|ex]; cbn [bind fst snd];
    [|discriminate].
  destruct (String.eqb t Placemark_tag).
  - destruct (loop_body float (Element t x kept) st1); cbn [bind]; [|discriminate].
    intros H; inversion H; reflexivity.
  - intros H; inversion H; reflexivity.
Qed.

Lemma first_only_snoc (kept : list element) (c : element) :
  first_only kept = true -> is_placemark c = false ->
  first_only (kept ++ [c]) = true.
Proof.
  intros Hk Hc. destruct kept as [|k kept]; [reflexivity|].
  cbn [app first_only] in *. rewrite forallb_app, Hk. cbn [forallb].
  rewrite Hc. reflexivity.
Qed.

Lemma iterparse_loop_released (e : element) :
  forall st e' st',
    iterparse_loop float e st = Ok (e', st') -> released e' = true.
Proof.
  induction e as [t x cs IH] using element_ind.
  assert (Hsib : forall kept st kept' st',
             forallb released kept = true -> first_only kept = true ->
             siblings_loop float cs kept st = Ok (kept', st') ->
             forallb released kept' = true /\ first_only kept' = true).
  { induction cs as [|c cs IHcs]; intros kept st kept' st' Hr Hf H.
    - cbn [siblings_loop] in H. inversion H; subst. split; assumption.
    - inversion IH as [|? ? IHc IHrest]; subst.
      rewrite siblings_loop_cons in H.
      destruct (iterparse_loop float c st) as [[c1 st1]|ex] eqn:Hc;
        cbn [bind fst snd] in H; [|discriminate].
      pose proof (IHc st c1 st1 Hc) as Hc1.
      pose proof (iterparse_loop_tag c c1 st st1 Hc) as Htag.
      destruct (is_placemark c) eqn:Hp.
      + apply (IHcs IHrest [c1] st1 kept' st'); [cbn [forallb]; rewrite Hc1|..]; auto.
      + apply (IHcs IHrest (kept ++ [c1]) st1 kept' st'); auto.
        * rewrite forallb_app, Hr. cbn [forallb]. rewrite Hc1. reflexivity.
        * apply first_only_snoc; [exact Hf|].
          unfold is_placemark in *. rewrite Htag. exact Hp. }
  intros st e' st'. rewrite iterparse_loop_eq.
  destruct (siblings_loop float cs [] st) as [[kept st1]|ex] eqn:Hs;
    cbn [bind fst snd]; [|discriminate].
  destruct (Hsib [] st kept st1 eq_refl eq_refl Hs) as [Hr Hf].
  destruct (String.eqb t Placemark_tag) eqn:Ht.
  - destruct (loop_body float (Element t x kept) st1); cbn [bind]; [|discriminate].
    intros H; inversion H; subst. unfold clear. cbn [tag].
    rewrite released_eq, Ht. reflexivity.
  - intros H; inversion H; subst. rewrite released_eq, Ht, Hr, Hf. reflexivity.
Qed.

(** *** The claims about the extractor *)

(** C1.  On a KML document whose placemarks each have a name, coordinates
    and a coordinate string of two or three numeric parts, [parse_kml]
    returns as many rows as the document has Placemark elements, and the
    i-th row is the row of the i-th placemark in document order. *)
Theorem parse_kml_returns_every_placemark (root : element) :
  well_formed_kml root = true ->
  Forall (well_formed_placemark float) (placemarks root) ->
  exists df,
    parse_kml float root = Ok df /\
    length df = count_placemarks root /\
    Forall2 (fun p row => placemark_row float p = Ok row) (placemarks root) df.
Proof.
  intros Hwf Hall.
  assert (Hrows : exists df,
             Forall2 (fun p row => placemark_row float p = Ok row) (placemarks root) df).
  { induction Hall as [|p ps Hp _ IH]; [exists []; constructor|].
    destruct IH as [df IH].
    destruct Hp as (Hn & parts & Hc & Hlen & Hnum).
    destruct (find name_tag p) as [n|] eqn:En; [|contradiction].
    assert (Hrow : exists row, placemark_row float p = Ok row).
    { rewrite (placemark_row_parts p n parts En Hc).
      destruct parts as [|a [|b [|c [|d l]]]]; cbn [length] in Hlen;
        try (destruct Hlen; discriminate).
      - inversion Hnum as [|? ? Ha Hnum']; subst.
        inversion Hnum' as [|? ? Hb _]; subst.
        rewrite unpack_two. cbn [bind fst snd]. unfold py_float.
        destruct (float a); [|contradiction]. destruct (float b); [|contradiction].
        eexists; reflexivity.
      - inversion Hnum as [|? ? Ha Hnum']; subst.
        inversion Hnum' as [|? ? Hb _]; subst.
        rewrite unpack_three. cbn [bind fst snd]. unfold py_float.
        destruct (float a); [|contradiction]. destruct (float b); [|contradiction].
        eexists; reflexivity. }
    destruct Hrow as [row Hrow]. exists (row :: df). constructor; assumption. }
  destruct Hrows as [df Hrows]. exists df.
  rewrite (parse_kml_rows root Hwf), (rows_loop_ok _ _ Hrows). cbn [fst snd app].
  repeat split; [|exact Hrows].
  rewrite <- (placemarks_count root Hwf).
  symmetry. apply (Forall2_length Hrows).
Qed.

(** C4.  A placemark whose coordinate string splits into a number of
    parts other than 2 or 3 makes [parse_kml] raise a [ValueError]; no
    data frame is returned, not even the rows of the placemarks before. *)
Theorem parse_kml_wrong_arity_fails (root p : element) (parts : list string) :
  well_formed_kml root = true ->
  In p (placemarks root) ->
  coordinate_parts p = Some parts ->
  length parts <> 2 -> length parts <> 3 ->
  (exists e, parse_kml float root = Raise e /\ class_of e = CValueError) /\
  (forall df, parse_kml float root <> Ok df).
Proof.
  intros Hwf Hin Hc H2 H3.
  assert (Hp : exists e, placemark_row float p = Raise e).
  { destruct (find name_tag p) as [n|] eqn:En.
    - rewrite (placemark_row_parts p n parts En Hc), (unpack_arity _ H2 H3).
      eexists; reflexivity.
    - unfold placemark_row. rewrite En. eexists; reflexivity. }
  destruct Hp as [e Hp].
  destruct (parse_kml_fails root p e Hwf Hin Hp) as (e' & He' & Hcls).
  split; [exists e'; split; assumption|].
  intros df. rewrite He'. discriminate.
Qed.

(** C5.  With a coordinate string of exactly two parts the row has
    longitude [float] of the first part and latitude [float] of the
    second; with exactly three parts likewise, and the third part is not
    looked at. *)
Theorem placemark_row_longitude_latitude (p n : element) (lon lat : string)
  (x y : float64) :
  find name_tag p = Some n ->
  float lon = Some x -> float lat = Some y ->
  (coordinate_parts p = Some [lon; lat] ->
   placemark_row float p = Ok (mkRecord (text n) x y)) /\
  (forall alt, coordinate_parts p = Some [lon; lat; alt] ->
   placemark_row float p = Ok (mkRecord (text n) x y)).
Proof.
  intros Hn Hx Hy. split; [intros Hc|intros alt Hc];
    rewrite (placemark_row_parts p n _ Hn Hc);
    [rewrite unpack_two|rewrite unpack_three];
    cbn [bind fst snd]; unfold py_float; rewrite Hx, Hy; reflexivity.
Qed.

(** C6, as amended.  When the first placemark that fails is one whose
    longitude or latitude does not convert, the [ValueError] of [float]
    leaves [parse_kml] as it was raised: it carries the text that did not
    convert, and nothing about the position of the placemark. *)
Theorem float_error_propagates_unchanged (root : element) (i : nat) (tok : string) :
  well_formed_kml root = true ->
  offending float root = Some (i, FloatError tok) ->
  parse_kml float root = Raise (FloatError tok).
Proof.
  intros Hwf Hoff. unfold offending in Hoff.
  rewrite (parse_kml_rows root Hwf).
  rewrite (first_failure_raises _ _ _ _ ([], 0) Hoff). reflexivity.
Qed.

(** C7, as amended.  A placemark whose longitude or latitude part (one of
    the first two parts of its coordinate string) does not convert to a
    float makes [parse_kml] raise a [ValueError]; no data frame is
    returned. *)
Theorem parse_kml_non_numeric_lon_lat_fails (root p : element)
  (parts : list string) (tok : string) :
  well_formed_kml root = true ->
  In p (placemarks root) ->
  coordinate_parts p = Some parts ->
  In tok (firstn 2 parts) -> float tok = None ->
  (exists e, parse_kml float root = Raise e /\ class_of e = CValueError) /\
  (forall df, parse_kml float root <> Ok df).
Proof.
  intros Hwf Hin Hc Htok Hnone.
  assert (Hp : exists e, placemark_row float p = Raise e).
  { destruct (find name_tag p) as [n|] eqn:En.
    - rewrite (placemark_row_parts p n parts En Hc).
      destruct (unpack parts) as [[lon lat]|e] eqn:Hu; cbn [bind fst snd];
        [|eexists; reflexivity].
      rewrite (unpack_ok _ _ _ Hu) in Htok. unfold py_float.
      destruct Htok as [<-|[<-|[]]].
      + rewrite Hnone. eexists; reflexivity.
      + destruct (float lon); cbn [bind]; [|eexists; reflexivity].
        rewrite Hnone. eexists; reflexivity.
    - unfold placemark_row. rewrite En. eexists; reflexivity. }
  destruct Hp as [e Hp].
  destruct (parse_kml_fails root p e Hwf Hin Hp) as (e' & He' & Hcls).
  split; [exists e'; split; assumption|].
  intros df. rewrite He'. discriminate.
Qed.

(** C8.  A document without Placemark elements yields the empty data
    frame, not an error. *)
Theorem parse_kml_no_placemarks (root : element) :
  placemark_free root = true ->
  parse_kml float root = Ok [].
Proof.
  intros Hfree. unfold parse_kml.
  rewrite (iterparse_loop_placemark_free root Hfree). reflexivity.
Qed.

(** C3, as amended.  Whenever the extraction succeeds, every Placemark
    element still in the tree has been cleared and has no preceding
    sibling: the loop releases each placemark and the siblings before
    it, and nothing else. *)
Theorem iterparse_loop_releases_placemarks (root t : element) :
  retained float root = Some t ->
  released t = true.
Proof.
  unfold retained.
  destruct (iterparse_loop float root ([], 0)) as [[t' st]|e] eqn:H; [|discriminate].
  intros Ht; inversion Ht; subst.
  apply (iterparse_loop_released root _ _ _ H).
Qed.

End ExtractorFacts.

(** ** The export coordinator *)

Section CoordinatorFacts.

Context {DF Fig : Type} {ext : Collaborators DF Fig}.

Lemma Forall2_In_l (A B : Type) (R : A -> B -> Prop) (l : list A) (l' : list B) (x : A) :
  Forall2 R l l' -> In x l -> exists y, In y l' /\ R x y.
Proof.
  induction 1 as [|a b l l' Hab _ IH]; intros Hin; [contradiction|].
  destruct Hin as [<-|Hin].
  - exists b. split; [left; reflexivity|exact Hab].
  - destruct (IH Hin) as (y & Hy & Hxy). exists y. split; [right; exact Hy|exact Hxy].
Qed.

Lemma futures_getitem_key (d : list (future Fig * string)) (f : future Fig) :
  In f (map fst d) -> exists v, futures_getitem d f = Ok v.
Proof.
  induction d as [|[k v] d IH]; intros Hin; [contradiction|].
  cbn [futures_getitem]. destruct (Nat.eqb (future_id k) (future_id f)) eqn:E.
  - exists v; reflexivity.
  - destruct Hin as [Hk|Hin]; [|apply (IH Hin)].
    cbn [fst] in Hk. subst k. rewrite Nat.eqb_refl in E. discriminate.
Qed.

(** Collecting one future never raises: the [try] absorbs the failure of
    the task and of the export alike. *)
Lemma collect_key (d : list (future Fig * string)) (tick : nat) (f : future Fig) :
  In f (map fst d) ->
  exists o, collect d tick f = Ok o /\ outcome_name o = filed_as d f.
Proof.
  intros Hin. destruct (futures_getitem_key d f Hin) as [v Hv].
  unfold collect, filed_as. rewrite Hv. cbn [bind].
  destruct (future_result f) as [fig|e]; cbn [bind].
  - unfold export_plot. destruct (write_html fig _).
    + eexists; split; reflexivity.
    + eexists; split; reflexivity.
  - eexists; split; reflexivity.
Qed.

Lemma collect_all_keys (d : list (future Fig * string)) (completed : list (future Fig)) :
  (forall f, In f completed -> In f (map fst d)) ->
  forall tick, exists outcomes,
    collect_all d tick completed = Ok outcomes /\
    map outcome_name outcomes = map (filed_as d) completed /\
    Forall2 (fun f o => exists tick', collect d tick' f = Ok o) completed outcomes.
Proof.
  induction completed as [|f completed IH]; intros Hin tick.
  - exists []. repeat split. constructor.
  - destruct (collect_key d tick f (Hin f (or_introl eq_refl))) as (o & Ho & Hname).
    destruct (IH (fun g Hg => Hin g (or_intror Hg)) (S tick)) as (os & Hos & Hnames & Hall).
    exists (o :: os). cbn [collect_all]. rewrite Ho. cbn [bind].
    rewrite Hos. cbn [bind map]. rewrite Hname, Hnames.
    repeat split. constructor; [exists tick; exact Ho|exact Hall].
Qed.

(** C2.  Whatever order the three futures complete in and whichever of
    the tasks or exports fail, [export_all_plots] returns normally and
    leaves exactly one outcome for each of the three kinds; the outcome of
    a kind is decided by its own task and export alone: a failed render is
    logged for that kind, a successful one is handed to [export_plot]. *)
Theorem export_all_plots_isolates_failures (df : DF) (completed : list (future Fig)) :
  Permutation completed (map fst (futures df)) ->
  exists outcomes,
    export_all_plots df completed = Ok outcomes /\
    Permutation (map outcome_name outcomes)
      ["scatter_plot"; "density_plot"; "lines_plot"] /\
    forall plot_type, In plot_type export_plot_types ->
      match create_map df plot_type with
      | Raise e => In (Failed (plot_name_of plot_type) e) outcomes
      | Ok fig =>
          exists tick,
            match export_plot tick fig (plot_name_of plot_type) with
            | Ok o => In o outcomes
            | Raise e => In (Failed (plot_name_of plot_type) e) outcomes
            end
      end.
Proof.
  intros Hperm.
  destruct (collect_all_keys (futures df) completed
              (fun f Hf => Permutation_in f Hperm Hf) 0)
    as (outcomes & Hrun & Hnames & Hall).
  exists outcomes. split; [exact Hrun|]. split.
  - rewrite Hnames.
    apply (Permutation_map (filed_as (futures df))) in Hperm.
    exact Hperm.
  - intros plot_type Hin.
    assert (Hfut : exists f,
               In f (map fst (futures df)) /\
               future_result f = create_map df plot_type /\
               futures_getitem (futures df) f = Ok (plot_name_of plot_type)).
    { destruct Hin as [<-|[<-|[<-|[]]]].
      - exists (mkFuture 0 (create_map df "Scatter Plot")).
        split; [left; reflexivity|split; reflexivity].
      - exists (mkFuture 1 (create_map df "Density Plot")).
        split; [right; left; reflexivity|split; reflexivity].
      - exists (mkFuture 2 (create_map df "Lines Plot")).
        split; [right; right; left; reflexivity|split; reflexivity]. }
    destruct Hfut as (f & Hf & Hres & Hkey).
    apply (Permutation_in f (Permutation_sym Hperm)) in Hf.
    destruct (Forall2_In_l _ _ _ _ _ _ Hall Hf) as (o & Ho & tick & Hcol).
    unfold collect in Hcol. rewrite Hkey, Hres in Hcol. cbn [bind] in Hcol.
    destruct (create_map df plot_type) as [fig|e]; cbn [bind] in Hcol.
    + exists tick.
      destruct (export_plot tick fig (plot_name_of plot_type)); inversion Hcol; subst; exact Ho.
    + inversion Hcol; subst; exact Ho.
Qed.

End CoordinatorFacts.

(** ** The prompts and the file check *)

(** C9.  Any answer other than exactly 1, 2, 3 or A selects the scatter
    plot; such an answer never selects All. *)
Theorem choose_plot_type_default (choice : string) :
  choice <> "1" -> choice <> "2" -> choice <> "3" -> choice <> "A" ->
  choose_plot_type choice = "Scatter Plot" /\ choose_plot_type choice <> "All".
Proof.
  intros H1 H2 H3 HA.
  assert (E : choose_plot_type choice = "Scatter Plot").
  { unfold choose_plot_type, plot_types. cbn [dict_get].
    destruct (String.eqb_spec "1" choice) as [E|_]; [symmetry in E; contradiction|].
    destruct (String.eqb_spec "2" choice) as [E|_]; [symmetry in E; contradiction|].
    destruct (String.eqb_spec "3" choice) as [E|_]; [symmetry in E; contradiction|].
    destruct (String.eqb_spec "A" choice) as [E|_]; [symmetry in E; contradiction|].
    reflexivity. }
  split; [exact E|]. rewrite E. discriminate.
Qed.

Lemma choose_plot_type_default_witness :
  choose_plot_type "a" = "Scatter Plot" /\ choose_plot_type "a" <> "All".
Proof.
  apply (choose_plot_type_default "a"); discriminate.
Defined.

Example choose_plot_type_empty : choose_plot_type "" = "Scatter Plot".
Proof. reflexivity. Qed.

Example choose_plot_type_keys :
  map choose_plot_type ["1"; "2"; "3"; "A"] =
  ["Scatter Plot"; "Density Plot"; "Lines Plot"; "All"].
Proof. reflexivity. Qed.

Lemma get_kml_filename_endswith (user_input : string) :
  Str.endswith (get_kml_filename user_input) ".kml" = true.
Proof.
  unfold get_kml_filename.
  destruct (String.eqb user_input "") eqn:E; [reflexivity|].
  destruct (Str.endswith user_input ".kml") eqn:S; cbn [negb].
  - exact S.
  - apply endswith_append.
Qed.

(** C10.  [get_kml_filename] maps the empty answer to [Locations.kml],
    appends [.kml] to any other answer that does not end in it, and leaves an
    answer that ends in it as it is; so it always returns a name ending in
    [.kml], and [validate_kml_file] applied to that name never takes the
    not-a-KML branch: it returns the name, or raises [FileNotFoundError]. *)
Theorem get_kml_filename_validates (user_input : string) :
  get_kml_filename EmptyString = "Locations.kml" /\
  (user_input <> EmptyString -> Str.endswith user_input ".kml" = false ->
   get_kml_filename user_input = (user_input ++ ".kml")%string) /\
  (Str.endswith user_input ".kml" = true ->
   get_kml_filename user_input = user_input) /\
  Str.endswith (get_kml_filename user_input) ".kml" = true /\
  (forall isfile : string -> bool,
     validate_kml_file isfile (get_kml_filename user_input)
       = Ok (get_kml_filename user_input) \/
     validate_kml_file isfile (get_kml_filename user_input)
       = Raise (FileNotFoundError (get_kml_filename user_input))) /\
  (forall (isfile : string -> bool) (kml_file : string),
     validate_kml_file isfile (get_kml_filename user_input)
       <> Raise (NotKmlError kml_file)).
Proof.
  assert (Hvalid : forall isfile : string -> bool,
             validate_kml_file isfile (get_kml_filename user_input)
               = Ok (get_kml_filename user_input) \/
             validate_kml_file isfile (get_kml_filename user_input)
               = Raise (FileNotFoundError (get_kml_filename user_input))).
  { intros isfile. unfold validate_kml_file.
    rewrite get_kml_filename_endswith.
    destruct (isfile (get_kml_filename user_input)); cbn [negb];
      [left|right]; reflexivity. }
  split; [reflexivity|]. split; [|split; [|split; [|split]]].
  - intros Hne Hsuffix. unfold get_kml_filename.
    destruct user_input as [|c r]; [contradiction|].
    rewrite Hsuffix. reflexivity.
  - intros Hsuffix. unfold get_kml_filename.
    destruct user_input as [|c r]; [discriminate|].
    rewrite Hsuffix. reflexivity.
  - apply get_kml_filename_endswith.
  - exact Hvalid.
  - intros isfile kml_file. destruct (Hvalid isfile) as [H|H]; rewrite H; discriminate.
Qed.

Lemma get_kml_filename_validates_witness :
  get_kml_filename "" = "Locations.kml" /\
  get_kml_filename "trip" = "trip.kml" /\
  get_kml_filename "trip.kml" = "trip.kml".
Proof.
  destruct (get_kml_filename_validates "trip") as (Hempty & Happend & _).
  destruct (get_kml_filename_validates "trip.kml") as (_ & _ & Hkeep & _).
  split; [exact Hempty|]. split.
  - apply Happend; [discriminate|reflexivity].
  - apply Hkeep. reflexivity.
Defined.

Example get_kml_filename_samples :
  map get_kml_filename [""; "x"; "x.kml"; "a.KML"] =
  ["Locations.kml"; "x.kml"; "x.kml"; "a.KML.kml"].
Proof. reflexivity. Qed.

(** ** The claims at concrete inputs *)

Example parse_kml_two_placemarks :
  parse_kml decimal_float two_placemarks =
  Ok [mkRecord (Some "A") (Qmake 10 1) (Qmake 20 1);
      mkRecord (Some "B") (Qmake (-11) 2) (Qmake 301 10)].
Proof. reflexivity. Qed.

Lemma parse_kml_returns_every_placemark_witness :
  exists df,
    parse_kml decimal_float two_placemarks = Ok df /\
    length df = count_placemarks two_placemarks /\
    Forall2 (fun p row => placemark_row decimal_float p = Ok row)
      (placemarks two_placemarks) df.
Proof.
  apply (parse_kml_returns_every_placemark Q decimal_float two_placemarks).
  - reflexivity.
  - repeat constructor; try (vm_compute; discriminate).
    + exists ["10.0"; "20.0"]. split; [reflexivity|]. split; [left; reflexivity|].
      repeat constructor; vm_compute; discriminate.
    + exists ["-5.5"; "30.1"; "100"]. split; [reflexivity|]. split; [right; reflexivity|].
      repeat constructor; vm_compute; discriminate.
Defined.

Lemma parse_kml_wrong_arity_fails_witness :
  (exists e, parse_kml decimal_float one_part_second = Raise e /\ class_of e = CValueError) /\
  (forall df, parse_kml decimal_float one_part_second <> Ok df).
Proof.
  apply (parse_kml_wrong_arity_fails Q decimal_float one_part_second
           (point_placemark "B" "7") ["7"]).
  - reflexivity.
  - right; left; reflexivity.
  - reflexivity.
  - discriminate.
  - discriminate.
Defined.

Example parse_kml_one_part : 
  parse_kml decimal_float one_part_second = Raise (UnpackError 2 1).
Proof. reflexivity. Qed.

Lemma placemark_row_longitude_latitude_witness :
  (coordinate_parts (point_placemark "B" "-5.5,30.1,100") = Some ["-5.5"; "30.1"] ->
   placemark_row decimal_float (point_placemark "B" "-5.5,30.1,100")
     = Ok (mkRecord (Some "B") (Qmake (-11) 2) (Qmake 301 10))) /\
  (forall alt,
     coordinate_parts (point_placemark "B" "-5.5,30.1,100") = Some ["-5.5"; "30.1"; alt] ->
     placemark_row decimal_float (point_placemark "B" "-5.5,30.1,100")
       = Ok (mkRecord (Some "B") (Qmake (-11) 2) (Qmake 301 10))).
Proof.
  apply (placemark_row_longitude_latitude Q decimal_float
           (point_placemark "B" "-5.5,30.1,100") (el "name" (Some "B") [])
           "-5.5" "30.1" (Qmake (-11) 2) (Qmake 301 10)); reflexivity.
Defined.

Lemma float_error_propagates_unchanged_witness :
  parse_kml decimal_float bad_longitude_second = Raise (FloatError "x").
Proof.
  apply (float_error_propagates_unchanged Q decimal_float bad_longitude_second 2 "x");
    reflexivity.
Defined.

(** C6, the claim as stated fails: the same error comes out whether the
    placemark with the bad longitude is the first or the second, so no
    reading of the error gives the position. *)
Lemma float_error_has_no_position :
  offending decimal_float bad_longitude_first = Some (1, FloatError "x") /\
  offending decimal_float bad_longitude_second = Some (2, FloatError "x") /\
  parse_kml decimal_float bad_longitude_first = Raise (FloatError "x") /\
  parse_kml decimal_float bad_longitude_second = Raise (FloatError "x") /\
  ~ exists position : exception -> nat,
      forall root i tok,
        well_formed_kml root = true ->
        offending decimal_float root = Some (i, FloatError tok) ->
        exists e, parse_kml decimal_float root = Raise e /\ position e = i.
Proof.
  repeat split; try reflexivity.
  intros [position H].
  destruct (H bad_longitude_first 1 "x" eq_refl eq_refl) as (e1 & He1 & Hp1).
  destruct (H bad_longitude_second 2 "x" eq_refl eq_refl) as (e2 & He2 & Hp2).
  change (parse_kml decimal_float bad_longitude_first)
    with (@Raise (DataFrame Q) (FloatError "x")) in He1.
  change (parse_kml decimal_float bad_longitude_second)
    with (@Raise (DataFrame Q) (FloatError "x")) in He2.
  inversion He1; inversion He2; subst. congruence.
Qed.

Lemma parse_kml_non_numeric_lon_lat_fails_witness :
  (exists e, parse_kml decimal_float bad_longitude_second = Raise e
             /\ class_of e = CValueError) /\
  (forall df, parse_kml decimal_float bad_longitude_second <> Ok df).
Proof.
  apply (parse_kml_non_numeric_lon_lat_fails Q decimal_float bad_longitude_second
           (point_placemark "B" "x,1") ["x"; "1"] "x").
  - reflexivity.
  - right; left; reflexivity.
  - reflexivity.
  - left; reflexivity.
  - reflexivity.
Defined.

(** C7, the claim as stated fails: a third part that is not a number is
    not converted, and the placemark yields a row. *)
Lemma non_numeric_altitude_is_accepted :
  placemarks bad_altitude = [point_placemark "A" "10.0,20.0,abc"] /\
  coordinate_parts (point_placemark "A" "10.0,20.0,abc") = Some ["10.0"; "20.0"; "abc"] /\
  decimal_float "abc" = None /\
  parse_kml decimal_float bad_altitude =
    Ok [mkRecord (Some "A") (Qmake 10 1) (Qmake 20 1)].
Proof. repeat split; reflexivity. Qed.

(** Why the theorems ask for a KML document: the release of an inner
    placemark deletes the siblings before it, here the name of the outer
    placemark, which is closed later. *)
Example parse_kml_nested_placemark :
  parse_kml decimal_float nested_placemark =
  Raise (ParsingError (AttributeError "text")).
Proof. reflexivity. Qed.

Lemma parse_kml_no_placemarks_witness :
  parse_kml decimal_float no_placemark = Ok [].
Proof.
  apply (parse_kml_no_placemarks Q decimal_float no_placemark). reflexivity.
Defined.

Lemma iterparse_loop_releases_placemarks_witness :
  released
    (el "kml" None [el "Document" None [el "Placemark" None []]]) = true.
Proof.
  apply (iterparse_loop_releases_placemarks Q decimal_float two_placemarks).
  reflexivity.
Defined.

Lemma export_all_plots_isolates_failures_witness :
  exists outcomes,
    export_all_plots (ext := density_fails) tt lines_first = Ok outcomes /\
    Permutation (map outcome_name outcomes)
      ["scatter_plot"; "density_plot"; "lines_plot"] /\
    forall plot_type, In plot_type export_plot_types ->
      match create_map (ext := density_fails) tt plot_type with
      | Raise e => In (Failed (plot_name_of plot_type) e) outcomes
      | Ok fig =>
          exists tick,
            match export_plot (ext := density_fails) tick fig (plot_name_of plot_type) with
            | Ok o => In o outcomes
            | Raise e => In (Failed (plot_name_of plot_type) e) outcomes
            end
      end.
Proof.
  apply (export_all_plots_isolates_failures (ext := density_fails) tt lines_first).
  apply (perm_trans (l' := [mkFuture 0 (Ok "scatter"); mkFuture 2 (Ok "lines");
                            mkFuture 1 (Raise (OtherException "no density"))])).
  - apply perm_swap.
  - apply perm_skip. apply perm_swap.
Defined.

Example export_all_plots_density_fails :
  export_all_plots (ext := density_fails) tt lines_first =
  Ok [Saved "lines_plot" "261104120000_lines_plot.html" "lines";
      Saved "scatter_plot" "261104120000_scatter_plot.html" "scatter";
      Failed "density_plot" (OtherException "no density")].
Proof. reflexivity. Qed.

(** ** What stays in memory *)

Lemma folder_loop (st : loop_state Q) :
  iterparse_loop decimal_float (el "Folder" None [point_placemark "A" "1,2"]) st =
  Ok (el "Folder" None [el "Placemark" None []],
      (fst st ++ [mkRecord (Some "A") (Qmake 1 1) (Qmake 2 1)], S (snd st))).
Proof. reflexivity. Qed.

Lemma folders_loop (n : nat) :
  forall kept st, exists st',
    siblings_loop decimal_float
      (repeat (el "Folder" None [point_placemark "A" "1,2"]) n) kept st =
    Ok (kept ++ repeat (el "Folder" None [el "Placemark" None []]) n, st').
Proof.
  induction n as [|n IH]; intros kept st.
  - exists st. cbn [repeat siblings_loop]. rewrite app_nil_r. reflexivity.
  - cbn [repeat]. rewrite siblings_loop_cons, folder_loop. cbn [bind fst snd].
    destruct (IH (kept ++ [el "Folder" None [el "Placemark" None []]])
                 (fst st ++ [mkRecord (Some "A") (Qmake 1 1) (Qmake 2 1)], S (snd st)))
      as [st' Hst'].
    exists st'. change (is_placemark (el "Folder" None [point_placemark "A" "1,2"])) with false.
    cbn iota. rewrite Hst', <- app_assoc. reflexivity.
Qed.

Lemma one_per_folder_retained (n : nat) :
  retained decimal_float (one_per_folder n) =
  Some (el "kml" None (repeat (el "Folder" None [el "Placemark" None []]) n)).
Proof.
  unfold retained, one_per_folder, el at 1. rewrite iterparse_loop_eq.
  destruct (folders_loop n [] ([], 0)) as [st' ->]. reflexivity.
Qed.

Lemma one_per_folder_placemarks (n : nat) :
  placemarks (one_per_folder n) = repeat (point_placemark "A" "1,2") n.
Proof.
  unfold one_per_folder, el at 1. rewrite placemarks_eq.
  change (String.eqb (KML_NS ++ "kml") Placemark_tag) with false. cbn iota.
  induction n as [|n IH]; [reflexivity|].
  cbn [repeat placemarks_in]. rewrite IH. reflexivity.
Qed.

Lemma one_per_folder_well_formed (n : nat) :
  well_formed_kml (one_per_folder n) = true.
Proof.
  unfold one_per_folder, el at 1. cbn [well_formed_kml].
  change (String.eqb (KML_NS ++ "kml") Placemark_tag) with false. cbn iota.
  induction n as [|n IH]; [reflexivity|].
  cbn [repeat forallb]. rewrite IH. reflexivity.
Qed.

Lemma one_per_folder_largest (n : nat) :
  largest_placemark (one_per_folder n) <= 4.
Proof.
  unfold largest_placemark. rewrite one_per_folder_placemarks.
  induction n as [|n IH]; cbn [repeat fold_right]; [lia|].
  change (size (point_placemark "A" "1,2")) with 4. lia.
Qed.

Lemma folders_size (n : nat) :
  total_size (repeat (el "Folder" None [el "Placemark" None []]) n) = 2 * n.
Proof.
  induction n as [|n IH]; [reflexivity|].
  cbn [repeat total_size]. rewrite IH.
  change (size (el "Folder" None [el "Placemark" None []])) with 2. lia.
Qed.

(** C3, the claim as stated fails.  A document without placemarks is built
    and kept whole, and no constant bounds the tree that is kept by the size
    of one placemark: with one placemark per folder, the emptied placemark
    and its folder stay for every placemark read. *)
Lemma retained_tree_grows_with_the_document :
  retained decimal_float no_placemark = Some no_placemark /\
  ~ exists c, forall root t,
      well_formed_kml root = true ->
      retained decimal_float root = Some t ->
      size t <= c * S (largest_placemark root).
Proof.
  split; [reflexivity|].
  intros [c H].
  specialize (H (one_per_folder (3 * c)) _
                (one_per_folder_well_formed _) (one_per_folder_retained _)).
  unfold el at 1 in H. rewrite size_eq, folders_size in H.
  pose proof (one_per_folder_largest (3 * c)) as Hmax.
  nia.
Qed.

Example one_per_folder_three :
  retained decimal_float (one_per_folder 3) =
  Some (el "kml" None
          [el "Folder" None [el "Placemark" None []];
           el "Folder" None [el "Placemark" None []];
           el "Folder" None [el "Placemark" None []]]).
Proof. reflexivity. Qed.

(* ================================================================== *)
(** * Further properties of the script *)

(** ** Splitting and stripping the coordinate text *)

Lemma split_length (sep : ascii) (s : string) :
  length (Str.split sep s) = S (count_char sep s).
Proof.
  induction s as [|c s IH]; [reflexivity|].
  cbn [Str.split count_char]. destruct (Ascii.eqb c sep).
  - cbn [length]. rewrite IH. reflexivity.
  - destruct (Str.split sep s) as [|p ps] eqn:E.
    + exfalso. apply (split_not_nil sep s E).
    + cbn [length] in *. rewrite IH. reflexivity.
Qed.

(** X1.  The two unpacking assignments accept the split coordinate text
    exactly when the text has one or two commas. *)
Theorem unpack_accepts_one_or_two_commas (coordinates : string) :
  (exists lon lat, unpack (Str.split "," coordinates) = Ok (lon, lat)) <->
  (count_char "," coordinates = 1 \/ count_char "," coordinates = 2).
Proof.
  pose proof (split_length "," coordinates) as Hlen.
  destruct (Str.split "," coordinates) as [|a [|b [|c [|d l]]]] eqn:E;
    cbn [length] in Hlen; split.
  - discriminate.
  - intros [H|H]; rewrite H in Hlen; discriminate.
  - intros (lon & lat & H). discriminate.
  - intros [H|H]; rewrite H in Hlen; discriminate.
  - intros _. left. congruence.
  - intros _. exists a, b. reflexivity.
  - intros _. right. congruence.
  - intros _. exists a, b. reflexivity.
  - intros (lon & lat & H). discriminate.
  - intros [H|H]; rewrite H in Hlen; discriminate.
Qed.

(** X2.  Splitting loses nothing and cuts at every separator: joining the
    parts with the separator gives the text back, and no part contains the
    separator. *)
Theorem split_concat (sep : ascii) (s : string) :
  String.concat (String sep EmptyString) (Str.split sep s) = s /\
  Forall (fun part => count_char sep part = 0) (Str.split sep s).
Proof.
  induction s as [|c s [IHc IHf]]; [split; [reflexivity|repeat constructor]|].
  cbn [Str.split]. destruct (Ascii.eqb c sep) eqn:Ec.
  - apply Ascii.eqb_eq in Ec. subst c. split.
    + destruct (Str.split sep s) as [|p ps] eqn:E;
        [exfalso; apply (split_not_nil sep s E)|].
      change (String.concat (String sep EmptyString) (EmptyString :: p :: ps))
        with (String sep (String.concat (String sep EmptyString) (p :: ps))).
      rewrite IHc. reflexivity.
    + constructor; [reflexivity|exact IHf].
  - destruct (Str.split sep s) as [|p ps] eqn:E;
      [exfalso; apply (split_not_nil sep s E)|].
    split.
    + destruct ps as [|q qs].
      * cbn [String.concat] in *. rewrite IHc. reflexivity.
      * change (String.concat (String sep EmptyString) (String c p :: q :: qs))
          with (String c (String.concat (String sep EmptyString) (p :: q :: qs))).
        rewrite IHc. reflexivity.
    + inversion IHf as [|? ? Hp Hps]; subst. constructor; [|exact Hps].
      cbn [count_char]. rewrite Ec, Hp. reflexivity.
Qed.

Lemma lstrip_all_space (a s : string) :
  all_space a = true -> Str.lstrip (a ++ s)%string = Str.lstrip s.
Proof.
  induction a as [|c a IH]; intros H; [reflexivity|].
  cbn [all_space] in H. apply andb_prop in H as [Hc Ha].
  cbn [append Str.lstrip]. rewrite Hc. apply (IH Ha).
Qed.

Lemma lstrip_space_only (s : string) :
  all_space s = true -> Str.lstrip s = EmptyString.
Proof.
  induction s as [|c s IH]; intros H; [reflexivity|].
  cbn [all_space] in H. apply andb_prop in H as [Hc Hs].
  cbn [Str.lstrip]. rewrite Hc. apply (IH Hs).
Qed.

Lemma rstrip_all_space (b : string) :
  all_space b = true -> Str.rstrip b = EmptyString.
Proof.
  induction b as [|c b IH]; intros H; [reflexivity|].
  cbn [all_space] in H. apply andb_prop in H as [Hc Hb].
  cbn [Str.rstrip]. rewrite (IH Hb), Hc. reflexivity.
Qed.

Lemma rstrip_app_space (s b : string) :
  all_space b = true -> Str.rstrip (s ++ b)%string = Str.rstrip s.
Proof.
  intros Hb. induction s as [|c s IH].
  - apply (rstrip_all_space b Hb).
  - cbn [append Str.rstrip]. rewrite IH. reflexivity.
Qed.

Lemma lstrip_app (s b : string) :
  Str.lstrip (s ++ b)%string =
  if all_space s then Str.lstrip b else (Str.lstrip s ++ b)%string.
Proof.
  induction s as [|c s IH]; [reflexivity|].
  cbn [append Str.lstrip all_space]. destruct (Str.isspace c); [exact IH|reflexivity].
Qed.

(** X3.  White space around the coordinate text does not count: padding a
    text with white space on either side leaves its stripped form the
    same. *)
Theorem strip_ignores_padding (a s b : string) :
  all_space a = true -> all_space b = true ->
  Str.strip (a ++ s ++ b)%string = Str.strip s.
Proof.
  intros Ha Hb. unfold Str.strip.
  rewrite (lstrip_all_space a (s ++ b) Ha), lstrip_app.
  destruct (all_space s) eqn:Hs.
  - rewrite (lstrip_space_only b Hb), (lstrip_space_only s Hs). reflexivity.
  - apply (rstrip_app_space _ b Hb).
Qed.

Lemma strip_ignores_padding_witness :
  Str.strip (String "010" "  " ++ "10.0,20.0" ++ String "010" " ")%string = Str.strip "10.0,20.0".
Proof.
  apply (strip_ignores_padding (String "010" "  ") "10.0,20.0" (String "010" " "));
    reflexivity.
Defined.

(** ** More on the extraction loop *)

Section ExtractorMore.

Variable float64 : Type.
Variable float : string -> option float64.

Lemma loop_body_raises (p : element) (st : loop_state float64) (ex : exception) :
  loop_body float p st = Raise ex -> placemark_row float p = Raise ex.
Proof.
  unfold loop_body. destruct (placemark_row float p); cbn [bind]; [discriminate|].
  intros H; inversion H; reflexivity.
Qed.

(** An exception of the traversal is one that the loop body raised on some
    element, whatever the shape of the document. *)
Lemma iterparse_loop_raises (e : element) :
  forall st ex,
    iterparse_loop float e st = Raise ex ->
    exists p, placemark_row float p = Raise ex.
Proof.
  induction e as [t x cs IH] using element_ind.
  assert (Hsib : forall kept st ex,
             siblings_loop float cs kept st = Raise ex ->
             exists p, placemark_row float p = Raise ex).
  { induction cs as [|c cs IHcs]; intros kept st ex H; [discriminate|].
    inversion IH as [|? ? IHc IHrest]; subst.
    rewrite siblings_loop_cons in H.
    destruct (iterparse_loop float c st) as [[c1 st1]|ex1] eqn:Hc; cbn [bind fst snd] in H.
    - destruct (is_placemark c); apply (IHcs IHrest _ _ _ H).
    - inversion H; subst. apply (IHc st ex Hc). }
  intros st ex. rewrite iterparse_loop_eq.
  destruct (siblings_loop float cs [] st) as [[kept st1]|ex1] eqn:Hs; cbn [bind fst snd].
  - destruct (String.eqb t Placemark_tag); [|discriminate].
    destruct (loop_body float (Element t x kept) st1) as [st2|ex2] eqn:Hb;
      cbn [bind]; [discriminate|].
    intros H; inversion H; subst.
    exists (Element t x kept). apply (loop_body_raises _ _ _ Hb).
  - intros H; inversion H; subst. apply (Hsib [] st ex Hs).
Qed.

(** X4.  For a document whose root element is not a Placemark, whatever
    else its shape, nested placemarks included, an exception that leaves
    [parse_kml] is a [ValueError]: the class that [main] catches. *)
Theorem parse_kml_raises_only_ValueError (root : element) (e : exception) :
  is_placemark root = false ->
  parse_kml float root = Raise e -> class_of e = CValueError.
Proof.
  intros _. unfold parse_kml.
  destruct (iterparse_loop float root ([], 0)) as [r|ex] eqn:H; [discriminate|].
  intros E; inversion E; subst.
  destruct (iterparse_loop_raises root _ _ H) as [p Hp].
  apply (placemark_row_raises _ float p ex Hp).
Qed.

(** The loop only appends rows, and counts each row it appends. *)
Lemma iterparse_loop_appends (e : element) :
  forall st e' st',
    iterparse_loop float e st = Ok (e', st') ->
    exists rows, fst st' = fst st ++ rows /\ snd st' = snd st + length rows.
Proof.
  induction e as [t x cs IH] using element_ind.
  assert (Hsib : forall kept st kept' st',
             siblings_loop float cs kept st = Ok (kept', st') ->
             exists rows, fst st' = fst st ++ rows /\ snd st' = snd st + length rows).
  { induction cs as [|c cs IHcs]; intros kept st kept' st' H.
    - cbn [siblings_loop] in H. inversion H; subst. exists [].
      rewrite app_nil_r. cbn [length]. split; [reflexivity|lia].
    - inversion IH as [|? ? IHc IHrest]; subst.
      rewrite siblings_loop_cons in H.
      destruct (iterparse_loop float c st) as [[c1 st1]|ex1] eqn:Hc;
        cbn [bind fst snd] in H; [|discriminate].
      destruct (IHc st c1 st1 Hc) as (rows1 & Hd1 & Hn1).
      assert (Hrest : exists rows, fst st' = fst st1 ++ rows
                                   /\ snd st' = snd st1 + length rows).
      { destruct (is_placemark c); apply (IHcs IHrest _ _ _ _ H). }
      destruct Hrest as (rows2 & Hd2 & Hn2).
      exists (rows1 ++ rows2). rewrite Hd2, Hd1, Hn2, Hn1, length_app, app_assoc.
      split; [reflexivity|lia]. }
  intros st e' st'. rewrite iterparse_loop_eq.
  destruct (siblings_loop float cs [] st) as [[kept st1]|ex1] eqn:Hs;
    cbn [bind fst snd]; [|discriminate].
  destruct (Hsib [] st kept st1 Hs) as (rows & Hd & Hn).
  destruct (String.eqb t Placemark_tag).
  - unfold loop_body.
    destruct (placemark_row float (Element t x kept)) as [row|ex]; cbn [bind];
      [|discriminate].
    intros H; inversion H; subst. cbn [fst snd].
    exists (rows ++ [row]). rewrite Hd, Hn, length_app, app_assoc. cbn [length].
    split; [reflexivity|lia].
  - intros H; inversion H; subst. exists rows. split; assumption.
Qed.

(** X5.  When the loop ends, [placemark_count], the number written to the
    log at line 96, is the number of rows of the data frame returned. *)
Theorem placemark_count_is_row_count (root t : element)
  (df : DataFrame float64) (placemark_count : nat) :
  iterparse_loop float root ([], 0) = Ok (t, (df, placemark_count)) ->
  parse_kml float root = Ok df /\ placemark_count = length df.
Proof.
  intros H. split.
  - unfold parse_kml. rewrite H. reflexivity.
  - destruct (iterparse_loop_appends root _ _ _ H) as (rows & Hd & Hn).
    cbn [fst snd app] in Hd, Hn. subst df. exact Hn.
Qed.

Lemma first_failure_bounds (ps : list element) :
  forall k i e,
    first_failure float ps k = Some (i, e) -> k <= i < k + length ps.
Proof.
  induction ps as [|p ps IH]; intros k i e H; [discriminate|].
  cbn [first_failure] in H. cbn [length].
  destruct (placemark_row float p).
  - apply IH in H. lia.
  - inversion H; subst. lia.
Qed.


(** X6.  On a KML document the error of [parse_kml] is the error of the
    first placemark, in document order, on which the loop body raises,
    passed through the except clause; the placemarks after it are not looked
    at. *)
Theorem parse_kml_reports_first_failure (root : element) (i : nat) (e : exception) :
  well_formed_kml root = true ->
  offending float root = Some (i, e) ->
  parse_kml float root = Raise (except_clause e) /\
  1 <= i <= count_placemarks root.
Proof.
  intros Hwf Hoff. unfold offending in Hoff. split.
  - rewrite (parse_kml_rows _ float root Hwf).
    rewrite (first_failure_raises _ float _ _ _ _ ([], 0) Hoff). reflexivity.
  - apply first_failure_bounds in Hoff.
    rewrite (placemarks_count root Hwf) in Hoff. lia.
Qed.




Lemma siblings_loop_app (l1 l2 kept : list element) (st : loop_state float64) :
  siblings_loop float (l1 ++ l2) kept st =
  (r <- siblings_loop float l1 kept st ;; siblings_loop float l2 (fst r) (snd r)).
Proof.
  revert kept st. induction l1 as [|c l1 IH]; intros kept st; [reflexivity|].
  cbn [app]. rewrite !siblings_loop_cons.
  destruct (iterparse_loop float c st) as [[c1 st1]|ex]; cbn [bind fst snd];
    [|reflexivity].
  destruct (is_placemark c); apply IH.
Qed.

Lemma iterparse_loop_clears (p p' : element) (st st' : loop_state float64) :
  is_placemark p = true ->
  iterparse_loop float p st = Ok (p', st') -> p' = clear p.
Proof.
  destruct p as [t x cs]. unfold is_placemark. cbn [tag]. intros Ht.
  rewrite iterparse_loop_eq.
  destruct (siblings_loop float cs [] st) as [[kept st1]|ex]; cbn [bind fst snd];
    [|discriminate].
  rewrite Ht.
  destruct (loop_body float (Element t x kept) st1); cbn [bind]; [|discriminate].
  intros H; inversion H; reflexivity.
Qed.

(** X10.  The release, seen on one element that is not a Placemark: when
    its last child to be or to hold a Placemark is a Placemark [p], then
    once the loop has passed the element its children are [p], cleared,
    followed by the children after [p]; everything before [p] is gone. *)
Theorem release_before_last_placemark (t : string) (x : option string)
  (before after : list element) (p e' : element) (st st' : loop_state float64) :
  String.eqb t Placemark_tag = false ->
  is_placemark p = true ->
  forallb placemark_free after = true ->
  iterparse_loop float (Element t x (before ++ p :: after)) st = Ok (e', st') ->
  e' = Element t x (clear p :: after).
Proof.
  intros Ht Hp Hafter. rewrite iterparse_loop_eq, siblings_loop_app.
  destruct (siblings_loop float before [] st) as [[kept st1]|ex]; cbn [bind fst snd];
    [|discriminate].
  rewrite siblings_loop_cons.
  destruct (iterparse_loop float p st1) as [[p1 st2]|ex] eqn:E; cbn [bind fst snd];
    [|discriminate].
  rewrite Hp, (siblings_loop_placemark_free _ float after Hafter). cbn [bind fst snd app].
  rewrite Ht, (iterparse_loop_clears p p1 st1 st2 Hp E).
  intros H; inversion H; reflexivity.
Qed.

(** X11.  A document without Placemark elements is built and stays in
    memory whole: the loop never runs, so nothing is released. *)
Theorem placemark_free_document_kept_whole (root : element) :
  placemark_free root = true ->
  retained float root = Some root.
Proof.
  intros H. unfold retained.
  rewrite (iterparse_loop_placemark_free _ float root H). reflexivity.
Qed.

End ExtractorMore.

Lemma parse_kml_raises_only_ValueError_witness :
  parse_kml decimal_float nested_placemark = Raise (ParsingError (AttributeError "text")) /\
  class_of (ParsingError (AttributeError "text")) = CValueError.
Proof.
  split; [reflexivity|].
  apply (parse_kml_raises_only_ValueError Q decimal_float nested_placemark);
    reflexivity.
Defined.

Lemma placemark_count_is_row_count_witness :
  parse_kml decimal_float two_placemarks =
    Ok [mkRecord (Some "A") (Qmake 10 1) (Qmake 20 1);
        mkRecord (Some "B") (Qmake (-11) 2) (Qmake 301 10)] /\
  2 = length [mkRecord (Some "A") (Qmake 10 1) (Qmake 20 1);
              mkRecord (Some "B") (Qmake (-11) 2) (Qmake 301 10)].
Proof.
  apply (placemark_count_is_row_count Q decimal_float two_placemarks
           (el "kml" None [el "Document" None [el "Placemark" None []]])).
  reflexivity.
Defined.

Lemma parse_kml_reports_first_failure_witness :
  parse_kml decimal_float bad_longitude_second = Raise (except_clause (FloatError "x")) /\
  1 <= 2 <= count_placemarks bad_longitude_second.
Proof.
  apply (parse_kml_reports_first_failure Q decimal_float bad_longitude_second 2
           (FloatError "x")); reflexivity.
Defined.




Example parse_kml_no_name :
  parse_kml decimal_float no_name_second = Raise (ParsingError (AttributeError "text")).
Proof. reflexivity. Qed.

Lemma release_before_last_placemark_witness :
  el "Document" None [el "Placemark" None []] =
  Element (KML_NS ++ "Document") None [clear (point_placemark "B" "-5.5,30.1,100")].
Proof.
  apply (release_before_last_placemark Q decimal_float (KML_NS ++ "Document") None
           [el "name" (Some "doc") []; point_placemark "A" "10.0,20.0"] []
           (point_placemark "B" "-5.5,30.1,100")
           (el "Document" None [el "Placemark" None []])
           ([], 0)
           ([mkRecord (Some "A") (Qmake 10 1) (Qmake 20 1);
             mkRecord (Some "B") (Qmake (-11) 2) (Qmake 301 10)], 2));
    reflexivity.
Defined.

Lemma placemark_free_document_kept_whole_witness :
  retained decimal_float no_placemark = Some no_placemark.
Proof.
  apply (placemark_free_document_kept_whole Q decimal_float no_placemark). reflexivity.
Defined.

(** ** File names *)

Lemma endswith_empty (suffix : string) :
  suffix <> EmptyString -> Str.endswith EmptyString suffix = false.
Proof. destruct suffix; [contradiction|reflexivity]. Qed.

Lemma endswith_prepend (a s suffix : string) :
  Str.endswith s suffix = true -> Str.endswith (a ++ s)%string suffix = true.
Proof.
  intros H. induction a as [|c a IH]; [exact H|].
  cbn [append Str.endswith]. rewrite IH. destruct (String.eqb _ _); reflexivity.
Qed.

(** X12.  Answering the file prompt with a name that the prompt returned
    gives that name again: the extension is added once. *)
Theorem get_kml_filename_idempotent (user_input : string) :
  get_kml_filename (get_kml_filename user_input) = get_kml_filename user_input.
Proof.
  pose proof (get_kml_filename_endswith user_input) as H.
  destruct (get_kml_filename user_input) as [|c r] eqn:E; [discriminate|].
  unfold get_kml_filename at 1. rewrite H. reflexivity.
Qed.

(** [validate_kml_file] returns exactly for the names of existing files
    that end in [.kml], and then returns the name it was given. *)
Lemma validate_kml_file_ok_iff (isfile : string -> bool) (kml_file r : string) :
  validate_kml_file isfile kml_file = Ok r <->
  isfile kml_file = true /\ Str.endswith kml_file ".kml" = true /\ r = kml_file.
Proof.
  unfold validate_kml_file.
  destruct (isfile kml_file); cbn [negb].
  - destruct (Str.endswith kml_file ".kml"); cbn [negb]; split.
    + intros H; inversion H; auto.
    + intros (_ & _ & ->). reflexivity.
    + discriminate.
    + intros (_ & H & _). discriminate.
  - split; [discriminate|]. intros (H & _). discriminate.
Qed.

Lemma html_default_endswith (timestamp plot_name user_input : string) :
  Str.endswith
    (get_html_filename timestamp (plot_name ++ ".html")%string user_input) ".html" = true.
Proof.
  unfold get_html_filename.
  destruct (String.eqb user_input "").
  - apply endswith_prepend. apply (endswith_prepend "_"). apply endswith_append.
  - destruct (Str.endswith user_input ".html") eqn:E; cbn [negb].
    + exact E.
    + apply endswith_append.
Qed.

(** X13.  With the default that [main] passes, a plot name followed by
    [.html], [get_html_filename] returns a name ending in [.html] whatever
    the user types. *)
Theorem get_html_filename_endswith (timestamp plot_name user_input : string) :
  Str.endswith
    (get_html_filename timestamp (plot_name ++ ".html")%string user_input) ".html" = true.
Proof.
  unfold get_html_filename.
  destruct (String.eqb user_input "").
  - apply endswith_prepend. apply (endswith_prepend "_"). apply endswith_append.
  - destruct (Str.endswith user_input ".html") eqn:E; cbn [negb].
    + exact E.
    + apply endswith_append.
Qed.

Lemma count_char_app (c : ascii) (a b : string) :
  count_char c (a ++ b)%string = count_char c a + count_char c b.
Proof.
  induction a as [|x a IH]; [reflexivity|].
  cbn [append count_char]. rewrite IH. lia.
Qed.

Lemma rpartition_absent (c : ascii) (s : string) :
  count_char c s = 0 -> Posixpath.rpartition c s = None.
Proof.
  induction s as [|x s IH]; [reflexivity|].
  cbn [count_char Posixpath.rpartition]. intros H.
  destruct (Ascii.eqb x c); [discriminate|].
  rewrite (IH H). reflexivity.
Qed.

Lemma rpartition_last (c : ascii) (a b : string) :
  count_char c b = 0 ->
  Posixpath.rpartition c (a ++ String c b)%string = Some (a, b).
Proof.
  intros H. induction a as [|x a IH].
  - cbn [append Posixpath.rpartition].
    rewrite (rpartition_absent c b H), Ascii.eqb_refl. reflexivity.
  - cbn [append Posixpath.rpartition]. rewrite IH. reflexivity.
Qed.

Lemma base_name_of_kml (stem : string) :
  count_char "/" stem = 0 -> Posixpath.all_dots stem = false ->
  fst (Posixpath.splitext (stem ++ ".kml")%string) = stem.
Proof.
  intros Hslash Hdots. unfold Posixpath.splitext.
  rewrite rpartition_absent by (rewrite count_char_app, Hslash; reflexivity).
  change (stem ++ ".kml")%string with (stem ++ String "." "kml")%string.
  rewrite (rpartition_last "." stem "kml" eq_refl), Hdots. reflexivity.
Qed.

Lemma get_output_filename_of_kml (timestamp stem : string) :
  count_char "/" stem = 0 -> Posixpath.all_dots stem = false ->
  get_output_filename timestamp (stem ++ ".kml")%string
    = (timestamp ++ "_" ++ stem ++ ".csv")%string.
Proof.
  intros Hslash Hdots.
  unfold get_output_filename, Posixpath.basename.
  rewrite rpartition_absent by (rewrite count_char_app, Hslash; reflexivity).
  rewrite (base_name_of_kml stem Hslash Hdots). reflexivity.
Qed.

(** X14.  The CSV is named after the file name alone: for a KML file
    [stem.kml], in whatever directory, the output is
    [<timestamp>_stem.csv], without the directory and without the
    extension. *)
Theorem get_output_filename_stem (timestamp dir stem : string) :
  count_char "/" stem = 0 -> Posixpath.all_dots stem = false ->
  get_output_filename timestamp (stem ++ ".kml")%string
    = (timestamp ++ "_" ++ stem ++ ".csv")%string /\
  get_output_filename timestamp (dir ++ "/" ++ stem ++ ".kml")%string
    = (timestamp ++ "_" ++ stem ++ ".csv")%string.
Proof.
  intros Hslash Hdots.
  assert (Hfile : count_char "/" (stem ++ ".kml")%string = 0)
    by (rewrite count_char_app, Hslash; reflexivity).
  split; [apply (get_output_filename_of_kml timestamp stem Hslash Hdots)|].
  unfold get_output_filename, Posixpath.basename.
  - change (dir ++ "/" ++ stem ++ ".kml")%string
      with (dir ++ String "/" (stem ++ ".kml"))%string.
    rewrite (rpartition_last "/" dir _ Hfile), (base_name_of_kml stem Hslash Hdots).
    reflexivity.
Qed.

Lemma get_output_filename_stem_witness :
  get_output_filename "261104120000" "Locations.kml" = "261104120000_Locations.csv" /\
  get_output_filename "261104120000" "cases/2026/Locations.kml"
    = "261104120000_Locations.csv".
Proof.
  apply (get_output_filename_stem "261104120000" "cases/2026" "Locations"); reflexivity.
Defined.

(** X15.  Typing the name with or without [.kml] at the prompt leads to
    the same CSV name. *)
Theorem kml_suffix_is_optional (timestamp stem : string) :
  count_char "/" stem = 0 -> Posixpath.all_dots stem = false ->
  Str.endswith stem ".kml" = false ->
  get_output_filename timestamp (get_kml_filename stem)
    = (timestamp ++ "_" ++ stem ++ ".csv")%string /\
  get_output_filename timestamp (get_kml_filename (stem ++ ".kml")%string)
    = (timestamp ++ "_" ++ stem ++ ".csv")%string.
Proof.
  intros Hslash Hdots Hsuffix.
  assert (E1 : get_kml_filename stem = (stem ++ ".kml")%string).
  { unfold get_kml_filename. destruct stem; [discriminate|].
    rewrite Hsuffix. reflexivity. }
  assert (E2 : get_kml_filename (stem ++ ".kml")%string = (stem ++ ".kml")%string).
  { unfold get_kml_filename. rewrite endswith_append.
    destruct stem; reflexivity. }
  rewrite E1, E2.
  split; apply (get_output_filename_of_kml timestamp stem Hslash Hdots).
Qed.

Lemma kml_suffix_is_optional_witness :
  get_output_filename "261104120000" (get_kml_filename "trip")
    = "261104120000_trip.csv" /\
  get_output_filename "261104120000" (get_kml_filename "trip.kml")
    = "261104120000_trip.csv".
Proof.
  apply (kml_suffix_is_optional "261104120000" "trip"); reflexivity.
Defined.

(** ** More on the export coordinator *)

Lemma append_same_length (a b x y : string) :
  String.length a = String.length b ->
  (a ++ x)%string = (b ++ y)%string -> x = y.
Proof.
  revert b. induction a as [|c a IH]; intros [|d b] Hlen H; try discriminate.
  - exact H.
  - cbn [append] in H. inversion H; subst.
    cbn [String.length] in Hlen. apply (IH b); [lia|assumption].
Qed.

Lemma string_length_app (a b : string) :
  String.length (a ++ b) = String.length a + String.length b.
Proof. induction a as [|c a IH]; [reflexivity|]. cbn [append String.length]. lia. Qed.

Lemma append_cancel_r (x y s : string) :
  (x ++ s)%string = (y ++ s)%string -> x = y.
Proof.
  revert y. induction x as [|c x IH]; intros [|d y] H.
  - reflexivity.
  - apply (f_equal String.length) in H.
    cbn [append String.length] in H. rewrite string_length_app in H. lia.
  - apply (f_equal String.length) in H.
    cbn [append String.length] in H. rewrite string_length_app in H. lia.
  - cbn [append] in H. inversion H; subst. f_equal. apply (IH y); assumption.
Qed.


Section CoordinatorMore.

Context {DF Fig : Type} {ext : Collaborators DF Fig}.


Lemma collect_saved (d : list (future Fig * string)) (tick : nat) (f : future Fig)
  (plot_name html_file : string) (fig : Fig) :
  collect d tick f = Ok (Saved plot_name html_file fig) ->
  html_file = (strftime_now tick ++ "_" ++ plot_name ++ ".html")%string.
Proof.
  unfold collect. destruct (futures_getitem d f) as [v|e]; cbn [bind]; [|discriminate].
  destruct (future_result f) as [fig'|e]; cbn [bind]; [|discriminate].
  unfold export_plot. destruct (write_html fig' _); [discriminate|].
  intros H; inversion H; reflexivity.
Qed.

Lemma saved_files_named (outcomes : list (outcome Fig)) (html_file : string) :
  In html_file (saved_files outcomes) ->
  exists plot_name fig, In (Saved plot_name html_file fig) outcomes.
Proof.
  induction outcomes as [|o os IH]; [contradiction|].
  destruct o as [n f fig|n e]; cbn [saved_files].
  - intros [<-|H].
    + exists n, fig. left; reflexivity.
    + destruct (IH H) as (n' & fig' & H'). exists n', fig'. right; exact H'.
  - intros H. destruct (IH H) as (n' & fig' & H'). exists n', fig'. right; exact H'.
Qed.

Lemma saved_files_NoDup (outcomes : list (outcome Fig)) :
  (forall i j, String.length (strftime_now i) = String.length (strftime_now j)) ->
  NoDup (map outcome_name outcomes) ->
  Forall (fun o => forall n f fig, o = Saved n f fig ->
            exists tick, f = (strftime_now tick ++ "_" ++ n ++ ".html")%string) outcomes ->
  NoDup (saved_files outcomes).
Proof.
  intros Hclock. induction outcomes as [|o os IH]; intros Hnames Hall; [constructor|].
  inversion Hnames as [|? ? Hfresh Hnames']; subst.
  inversion Hall as [|? ? Ho Hall']; subst.
  destruct o as [n f fig|n e]; cbn [saved_files]; [|apply (IH Hnames' Hall')].
  constructor; [|apply (IH Hnames' Hall')].
  intros Hin. apply Hfresh.
  destruct (saved_files_named os f Hin) as (n' & fig' & Hin').
  destruct (Ho n f fig eq_refl) as [t Ht].
  rewrite Forall_forall in Hall'.
  destruct (Hall' _ Hin' n' f fig' eq_refl) as [t' Ht'].
  rewrite Ht in Ht'.
  apply (append_same_length _ _ _ _ (Hclock t t')) in Ht'.
  cbn [append] in Ht'. inversion Ht' as [E].
  apply append_cancel_r in E. subst n'.
  cbn [outcome_name]. apply (in_map outcome_name _ _ Hin').
Qed.

(** X17.  When the clock writes every timestamp with the same number of
    characters, the files written by one call of [export_all_plots] have
    different names: no chart overwrites another, even within one second. *)
Theorem export_all_plots_files_differ (df : DF) (completed : list (future Fig))
  (outcomes : list (outcome Fig)) :
  (forall i j, String.length (strftime_now i) = String.length (strftime_now j)) ->
  Permutation completed (map fst (futures df)) ->
  export_all_plots df completed = Ok outcomes ->
  NoDup (saved_files outcomes).
Proof.
  intros Hclock Hperm Hrun.
  destruct (collect_all_keys (futures df) completed
              (fun f Hf => Permutation_in f Hperm Hf) 0)
    as (outcomes' & Hrun' & Hnames & Hall).
  unfold export_all_plots in Hrun. rewrite Hrun' in Hrun. inversion Hrun; subst.
  apply (saved_files_NoDup outcomes Hclock).
  - rewrite Hnames.
    apply (Permutation_NoDup
             (l := map (filed_as (futures df)) (map fst (futures df)))).
    + apply Permutation_sym, Permutation_map. exact Hperm.
    + repeat constructor; cbn; intuition discriminate.
  - clear Hrun Hrun' Hnames Hperm.
    induction Hall as [|f o fs os [tick Hcol] _ IH]; constructor; [|exact IH].
    intros n file fig ->. exists tick. apply (collect_saved _ _ _ _ _ _ Hcol).
Qed.

(** X18.  When the three chart builders and every write succeed, all three
    charts are written, whatever the completion order. *)
Theorem export_all_plots_all_saved (df : DF) (completed : list (future Fig)) :
  Permutation completed (map fst (futures df)) ->
  (forall plot_type, In plot_type export_plot_types ->
     exists fig, create_map df plot_type = Ok fig) ->
  (forall fig html_file, write_html fig html_file = None) ->
  exists outcomes,
    export_all_plots df completed = Ok outcomes /\
    length (saved_files outcomes) = 3.
Proof.
  intros Hperm Hrender Hwrite.
  destruct (collect_all_keys (futures df) completed
              (fun f Hf => Permutation_in f Hperm Hf) 0)
    as (outcomes & Hrun & _ & Hall).
  exists outcomes. split; [exact Hrun|].
  assert (Hlen : length completed = 3) by apply (Permutation_length Hperm).
  assert (Hok : Forall (fun f => exists fig, future_result f = Ok fig) completed).
  { rewrite Forall_forall. intros f Hf.
    apply (Permutation_in f Hperm) in Hf.
    destruct Hf as [<-|[<-|[<-|[]]]]; cbn [future_result];
      apply Hrender; cbn; auto. }
  rewrite <- Hlen. clear Hrun Hperm Hlen.
  induction Hall as [|f o fs os [tick Hcol] _ IH]; [reflexivity|].
  inversion Hok as [|? ? [fig Hfig] Hok']; subst.
  unfold collect in Hcol.
  destruct (futures_getitem (futures df) f) as [v|e]; cbn [bind] in Hcol;
    [|discriminate].
  rewrite Hfig in Hcol. cbn [bind] in Hcol. unfold export_plot in Hcol.
  rewrite Hwrite in Hcol. inversion Hcol; subst.
  cbn [saved_files length]. f_equal. apply (IH Hok').
Qed.

End CoordinatorMore.

Lemma export_all_plots_files_differ_witness :
  NoDup ["261104120000_lines_plot.html"; "261104120000_scatter_plot.html"].
Proof.
  apply (export_all_plots_files_differ (ext := density_fails) tt lines_first
           [Saved "lines_plot" "261104120000_lines_plot.html" "lines";
            Saved "scatter_plot" "261104120000_scatter_plot.html" "scatter";
            Failed "density_plot" (OtherException "no density")]).
  - reflexivity.
  - apply (perm_trans (l' := [mkFuture 0 (Ok "scatter"); mkFuture 2 (Ok "lines");
                              mkFuture 1 (Raise (OtherException "no density"))])).
    + apply perm_swap.
    + apply perm_skip. apply perm_swap.
  - reflexivity.
Defined.

Lemma export_all_plots_all_saved_witness :
  exists outcomes,
    export_all_plots (ext := all_charts) tt in_order = Ok outcomes /\
    length (saved_files outcomes) = 3.
Proof.
  apply (export_all_plots_all_saved (ext := all_charts) tt in_order).
  - apply Permutation_refl.
  - intros plot_type [<-|[<-|[<-|[]]]]; eexists; reflexivity.
  - reflexivity.
Defined.

(** ** The workflow *)

Section MainFacts.

Variable float64 : Type.
Variable float : string -> option float64.
Context {Fig : Type}.
Context {ext : Collaborators (DataFrame float64) Fig}.
Context {host : Host (DataFrame float64) Fig}.

Lemma parse_kml_raise_caught (root : element) (e : exception) :
  parse_kml float root = Raise e -> caught e = true.
Proof.
  unfold parse_kml.
  destruct (iterparse_loop float root ([], 0)) as [r|ex] eqn:H; [discriminate|].
  intros E; inversion E; subst.
  destruct (iterparse_loop_raises _ float root _ _ H) as [p Hp].
  unfold caught. rewrite (placemark_row_raises _ float p ex Hp). reflexivity.
Qed.

Lemma validate_chosen_file (kml_input : string) :
  isfile (get_kml_filename kml_input) = true ->
  validate_kml_file isfile (get_kml_filename kml_input) = Ok (get_kml_filename kml_input).
Proof.
  intros H. unfold validate_kml_file.
  rewrite H, get_kml_filename_endswith. reflexivity.
Qed.

(** X19.  When the chosen file does not exist, [main] prints the
    [FileNotFoundError] and does nothing else: no CSV, no chart, no
    exception left. *)
Theorem main_missing_file (kml_input choice html_input : string) :
  isfile (get_kml_filename kml_input) = false ->
  main float kml_input choice html_input
    = ([Printed (FileNotFoundError (get_kml_filename kml_input))], None).
Proof.
  intros H. unfold main, main_try, validate_kml_file. rewrite H. reflexivity.
Qed.

(** X20.  When the extraction of a document whose root element is not a
    Placemark fails, [main] prints the error and does nothing else: the CSV
    is not written, no chart is made, and the exception does not leave
    [main]. *)
Theorem main_extraction_failure (kml_input choice html_input : string) (e : exception) :
  isfile (get_kml_filename kml_input) = true ->
  is_placemark (document_at (get_kml_filename kml_input)) = false ->
  parse_kml float (document_at (get_kml_filename kml_input)) = Raise e ->
  main float kml_input choice html_input = ([Printed e], None).
Proof.
  intros Hfile _ Hparse. unfold main, main_try.
  rewrite (validate_chosen_file kml_input Hfile), Hparse.
  rewrite (parse_kml_raise_caught _ _ Hparse). reflexivity.
Qed.

Lemma export_all_plots_total (ext' : Collaborators (DataFrame float64) Fig)
  (df : DataFrame float64) (completed : list (future Fig)) :
  Permutation completed (map fst (futures (ext := ext') df)) ->
  exists outcomes,
    export_all_plots (ext := ext') df completed = Ok outcomes /\
    Permutation (map outcome_name outcomes)
      ["scatter_plot"; "density_plot"; "lines_plot"].
Proof.
  intros Hperm.
  destruct (collect_all_keys (ext := ext') (futures (ext := ext') df) completed
              (fun f Hf => Permutation_in f Hperm Hf) 0)
    as (outcomes & Hrun & Hnames & _).
  exists outcomes. split; [exact Hrun|]. rewrite Hnames.
  apply (Permutation_map (filed_as (futures (ext := ext') df))) in Hperm.
  exact Hperm.
Qed.

(** X21.  When the user answers [A] and the data has been extracted and
    saved, [main] ends without an exception and without printing an error,
    having left after the CSV exactly one outcome for each of the three
    kinds of chart, whatever fails in rendering or writing them. *)
Theorem main_all_plots (kml_input html_input : string) (df : DataFrame float64) :
  (forall fs, Permutation (as_completed fs) fs) ->
  isfile (get_kml_filename kml_input) = true ->
  parse_kml float (document_at (get_kml_filename kml_input)) = Ok df ->
  to_csv df (get_output_filename (strftime_now 0) (get_kml_filename kml_input)) = None ->
  exists outcomes,
    main float kml_input "A" html_input
      = (CsvSaved (get_output_filename (strftime_now 0) (get_kml_filename kml_input)) df
           :: map Plot outcomes, None) /\
    Permutation (map outcome_name outcomes)
      ["scatter_plot"; "density_plot"; "lines_plot"].
Proof.
  intros Hperm Hfile Hparse Hcsv.
  destruct (export_all_plots_total (later 1 ext) df _ (Hperm _))
    as (outcomes & Hrun & Hnames).
  exists outcomes. split; [|exact Hnames].
  unfold main, main_try.
  rewrite (validate_chosen_file kml_input Hfile), Hparse, Hcsv.
  unfold plot_step. change (choose_plot_type "A") with "All".
  cbn [String.eqb Ascii.eqb Bool.eqb]. cbn iota.
  rewrite Hrun. reflexivity.
Qed.

Lemma plot_step_no_csv (df : DataFrame float64) (choice html_input : string) :
  forallb (fun f => negb (is_csv_effect f)) (fst (plot_step df choice html_input)) = true.
Proof.
  unfold plot_step. destruct (String.eqb (choose_plot_type choice) "All").
  - destruct (export_all_plots _ _) as [outcomes|e]; [|reflexivity].
    cbn [fst]. induction outcomes as [|o os IH]; [reflexivity|exact IH].
  - destruct (create_map df (choose_plot_type choice)) as [fig|e]; [|reflexivity].
    destruct (show fig); [reflexivity|].
    destruct (write_html fig _); reflexivity.
Qed.

(** X22.  In every run of [main] the CSV comes first: either nothing is
    saved and nothing is plotted, or the first effect is the saving of the
    extracted data under the name from [get_output_filename], and the CSV
    is not written a second time. *)
Theorem main_saves_csv_first (kml_input choice html_input : string) :
  forallb (fun f => negb (is_csv_effect f) && negb (is_plot_effect f))
    (fst (main float kml_input choice html_input)) = true \/
  exists df rest,
    parse_kml float (document_at (get_kml_filename kml_input)) = Ok df /\
    fst (main float kml_input choice html_input)
      = CsvSaved (get_output_filename (strftime_now 0) (get_kml_filename kml_input)) df
          :: rest /\
    forallb (fun f => negb (is_csv_effect f)) rest = true.
Proof.
  unfold main, main_try.
  destruct (validate_kml_file isfile (get_kml_filename kml_input)) as [v|e];
    [|left; destruct (caught e); reflexivity].
  destruct (parse_kml float (document_at (get_kml_filename kml_input))) as [df|e];
    [|left; destruct (caught e); reflexivity].
  destruct (to_csv df _) as [e|]; [left; destruct (caught e); reflexivity|].
  right. exists df.
  pose proof (plot_step_no_csv df choice html_input) as Hrest.
  destruct (plot_step df choice html_input) as [effects [e|]]; cbn [fst snd] in *.
  - destruct (caught e); cbn [fst].
    + exists (effects ++ [Printed e]). repeat split.
      rewrite forallb_app, Hrest. reflexivity.
    + exists effects. repeat split. exact Hrest.
  - exists effects. repeat split. exact Hrest.
Qed.

Lemma collect_all_saved (ext' : Collaborators (DataFrame float64) Fig)
  (d : list (future Fig * string)) (completed : list (future Fig)) :
  forall tick outcomes,
    collect_all (ext := ext') d tick completed = Ok outcomes ->
    Forall (fun o => forall n f fig, o = Saved n f fig ->
              Str.endswith f ".html" = true) outcomes.
Proof.
  induction completed as [|c completed IH]; intros tick outcomes H.
  - inversion H. constructor.
  - cbn [collect_all] in H.
    destruct (collect (ext := ext') d tick c) as [o|e] eqn:Hc; cbn [bind] in H;
      [|discriminate].
    destruct (collect_all (ext := ext') d (S tick) completed) as [os|e] eqn:Hcs;
      cbn [bind] in H; [|discriminate].
    inversion H; subst. constructor; [|apply (IH _ _ Hcs)].
    intros n f fig ->.
    rewrite (collect_saved (ext := ext') _ _ _ _ _ _ Hc).
    apply endswith_prepend. apply (endswith_prepend "_"). apply endswith_append.
Qed.

(** X23.  Every chart file that a run of [main] writes, through
    [export_plot] or directly, has a name ending in [.html]. *)
Theorem main_writes_html_names (kml_input choice html_input : string) :
  Forall (fun f =>
            match f with
            | HtmlWritten html_file _ => Str.endswith html_file ".html" = true
            | Plot (Saved _ html_file _) => Str.endswith html_file ".html" = true
            | _ => True
            end)
    (fst (main float kml_input choice html_input)).
Proof.
  assert (Hstep : forall df,
             Forall (fun f =>
                       match f with
                       | HtmlWritten html_file _ => Str.endswith html_file ".html" = true
                       | Plot (Saved _ html_file _) => Str.endswith html_file ".html" = true
                       | _ => True
                       end)
               (fst (plot_step df choice html_input))).
  { intros df. unfold plot_step.
    destruct (String.eqb (choose_plot_type choice) "All").
    - destruct (export_all_plots _ _) as [outcomes|e] eqn:Hrun; [|constructor].
      cbn [fst]. unfold export_all_plots in Hrun.
      apply collect_all_saved in Hrun.
      induction Hrun as [|o os Ho _ IH]; constructor; [|exact IH].
      destruct o as [n f fig|n e]; [|exact I]. apply (Ho n f fig eq_refl).
    - destruct (create_map df (choose_plot_type choice)) as [fig|e]; [|constructor].
      destruct (show fig); [constructor|].
      destruct (write_html fig _); repeat constructor.
      apply html_default_endswith. }
  unfold main, main_try.
  destruct (validate_kml_file isfile (get_kml_filename kml_input)) as [v|e];
    [|destruct (caught e); repeat constructor].
  destruct (parse_kml float (document_at (get_kml_filename kml_input))) as [df|e];
    [|destruct (caught e); repeat constructor].
  destruct (to_csv df _) as [e|]; [destruct (caught e); repeat constructor|].
  specialize (Hstep df).
  destruct (plot_step df choice html_input) as [effects [e|]]; cbn [fst snd] in *.
  - destruct (caught e); cbn [fst].
    + constructor; [exact I|]. apply Forall_app. split; [exact Hstep|repeat constructor].
    + constructor; [exact I|exact Hstep].
  - constructor; [exact I|exact Hstep].
Qed.



End MainFacts.

Lemma main_missing_file_witness :
  main (ext := charts) (host := directory two_placemarks) decimal_float "missing" "1" ""
    = ([Printed (FileNotFoundError "missing.kml")], None).
Proof.
  apply (@main_missing_file Q decimal_float string charts (directory two_placemarks)
           "missing" "1" "").
  reflexivity.
Defined.

Lemma main_extraction_failure_witness :
  main (ext := charts) (host := directory bad_longitude_second) decimal_float "" "1" ""
    = ([Printed (FloatError "x")], None).
Proof.
  apply (@main_extraction_failure Q decimal_float string charts
           (directory bad_longitude_second) "" "1" "" (FloatError "x"));
    reflexivity.
Defined.

Lemma main_all_plots_witness :
  exists outcomes,
    main (ext := charts) (host := directory two_placemarks) decimal_float "" "A" ""
      = (CsvSaved "261104120000_Locations.csv"
           [mkRecord (Some "A") (Qmake 10 1) (Qmake 20 1);
            mkRecord (Some "B") (Qmake (-11) 2) (Qmake 301 10)]
           :: map Plot outcomes, None) /\
    Permutation (map outcome_name outcomes)
      ["scatter_plot"; "density_plot"; "lines_plot"].
Proof.
  apply (@main_all_plots Q decimal_float string charts (directory two_placemarks) "" ""
           [mkRecord (Some "A") (Qmake 10 1) (Qmake 20 1);
            mkRecord (Some "B") (Qmake (-11) 2) (Qmake 301 10)]).
  - intros fs. apply Permutation_sym, Permutation_rev.
  - reflexivity.
  - reflexivity.
  - reflexivity.
Defined.

Example main_all_plots_run :
  main (ext := charts) (host := directory two_placemarks) decimal_float "" "A" ""
    = ([CsvSaved "261104120000_Locations.csv"
          [mkRecord (Some "A") (Qmake 10 1) (Qmake 20 1);
           mkRecord (Some "B") (Qmake (-11) 2) (Qmake 301 10)];
        Plot (Saved "lines_plot" "261104120000_lines_plot.html" "lines");
        Plot (Failed "density_plot" (OtherException "no density"));
        Plot (Saved "scatter_plot" "261104120000_scatter_plot.html" "scatter")],
       None).
Proof. reflexivity. Qed.

Example main_single_plot_run :
  main (ext := charts) (host := directory two_placemarks) decimal_float "" "" "map"
    = ([CsvSaved "261104120000_Locations.csv"
          [mkRecord (Some "A") (Qmake 10 1) (Qmake 20 1);
           mkRecord (Some "B") (Qmake (-11) 2) (Qmake 301 10)];
        Shown "scatter";
        HtmlWritten "map.html" "scatter"],
       None).
Proof. reflexivity. Qed.

(** A failure of the density chart when it is the one chosen is not caught:
    it is neither a [ValueError] nor a [FileNotFoundError]. *)
Example main_single_plot_escapes :
  main (ext := charts) (host := directory two_placemarks) decimal_float "" "2" ""
    = ([CsvSaved "261104120000_Locations.csv"
          [mkRecord (Some "A") (Qmake 10 1) (Qmake 20 1);
           mkRecord (Some "B") (Qmake (-11) 2) (Qmake 301 10)]],
       Some (OtherException "no density")).
Proof. reflexivity. Qed.


(** The write fails after the chart has been shown; the error is printed. *)
Example main_unwritable_single :
  main (ext := charts_unwritable) (host := directory two_placemarks)
    decimal_float "" "3" "out/map"
    = ([CsvSaved "261104120000_Locations.csv"
          [mkRecord (Some "A") (Qmake 10 1) (Qmake 20 1);
           mkRecord (Some "B") (Qmake (-11) 2) (Qmake 301 10)];
        Shown "lines";
        Printed (FileNotFoundError "out/map.html")],
       None).
Proof. reflexivity. Qed.

(** The density chart fails when it is the one chosen; the error is
    printed. *)
Example main_unwritable_density :
  main (ext := charts_unwritable) (host := directory two_placemarks)
    decimal_float "" "2" ""
    = ([CsvSaved "261104120000_Locations.csv"
          [mkRecord (Some "A") (Qmake 10 1) (Qmake 20 1);
           mkRecord (Some "B") (Qmake (-11) 2) (Qmake 301 10)];
        Printed (FileNotFoundError "density")],
       None).
Proof. reflexivity. Qed.
